(** * network_analyzer.py: route parsing, collection and display

    A shallow embedding of [NetworkAnalyzer] (src/network_analyzer.py).

    - Python [str] values are sequences of Unicode code points.
    - Code that can raise (indexing, external calls) lives in an error
      monad; methods that touch [self], the shell or standard output live
      in a state-and-error monad whose state survives an exception, as the
      side effects of a Python method do.
    - Python dicts keep insertion order and are iterated in that order by
      the display code, so they are association lists here. *)

From Stdlib Require Import String Ascii List NArith Bool Arith Lia.
Import ListNotations.
Local Open Scope string_scope.
Local Open Scope list_scope.
Local Open Scope nat_scope.

(** ** Python strings *)

Definition char := N.
Definition str := list char.

(** A string literal of the source, as code points. *)
Definition u (s : string) : str := map N_of_ascii (list_ascii_of_string s).

Definition str_eqb (a b : str) : bool :=
  if list_eq_dec N.eq_dec a b then true else false.

(** [str.isspace] on one character, which is also the class [\s] of a
    [re] pattern on [str] (CPython: Py_UNICODE_ISSPACE). *)
Definition Py_UNICODE_ISSPACE (c : char) : bool :=
  ((0x09 <=? c) && (c <=? 0x0D) || (0x1C <=? c) && (c <=? 0x20)
   || (c =? 0x85) || (c =? 0xA0) || (c =? 0x1680)
   || (0x2000 <=? c) && (c <=? 0x200A)
   || (c =? 0x2028) || (c =? 0x2029) || (c =? 0x202F) || (c =? 0x205F)
   || (c =? 0x3000))%N.

(** The blocks of general category Nd (first code point, length) in the
    Unicode 14.0 database of CPython 3.11. *)
Definition Nd_blocks : list (N * N) :=
  [ (0x30, 10); (0x660, 10); (0x6F0, 10); (0x7C0, 10); (0x966, 10);
    (0x9E6, 10); (0xA66, 10); (0xAE6, 10); (0xB66, 10); (0xBE6, 10);
    (0xC66, 10); (0xCE6, 10); (0xD66, 10); (0xDE6, 10); (0xE50, 10);
    (0xED0, 10); (0xF20, 10); (0x1040, 10); (0x1090, 10); (0x17E0, 10);
    (0x1810, 10); (0x1946, 10); (0x19D0, 10); (0x1A80, 10); (0x1A90, 10);
    (0x1B50, 10); (0x1BB0, 10); (0x1C40, 10); (0x1C50, 10); (0xA620, 10);
    (0xA8D0, 10); (0xA900, 10); (0xA9D0, 10); (0xA9F0, 10); (0xAA50, 10);
    (0xABF0, 10); (0xFF10, 10); (0x104A0, 10); (0x10D30, 10); (0x11066, 10);
    (0x110F0, 10); (0x11136, 10); (0x111D0, 10); (0x112F0, 10); (0x11450, 10);
    (0x114D0, 10); (0x11650, 10); (0x116C0, 10); (0x11730, 10); (0x118E0, 10);
    (0x11950, 10); (0x11C50, 10); (0x11D50, 10); (0x11DA0, 10); (0x16A60, 10);
    (0x16AC0, 10); (0x16B50, 10); (0x1D7CE, 50); (0x1E140, 10); (0x1E2F0, 10);
    (0x1E950, 10); (0x1FBF0, 10) ]%N.

(** The class [\d] of a [re] pattern on [str] (CPython:
    Py_UNICODE_ISDECIMAL). *)
Definition Py_UNICODE_ISDECIMAL (c : char) : bool :=
  existsb (fun b => (fst b <=? c) && (c <? fst b + snd b))%N Nd_blocks.

(** [s.lstrip()], [s.rstrip()], [s.strip()] *)
Fixpoint lstrip (s : str) : str :=
  match s with
  | c :: s' => if Py_UNICODE_ISSPACE c then lstrip s' else s
  | [] => []
  end.

Definition rstrip (s : str) : str := rev (lstrip (rev s)).

Definition strip (s : str) : str := rstrip (lstrip s).

(** [s.startswith(prefix)] *)
Fixpoint startswith (s prefix : str) : bool :=
  match prefix, s with
  | [], _ => true
  | p :: prefix', c :: s' => (c =? p)%N && startswith s' prefix'
  | _ :: _, [] => false
  end.

(** [s.split(sep)] for a separator of one character: never empty, and
    [''.split(sep) == ['']]. *)
Fixpoint split (s : str) (sep : char) : list str :=
  match s with
  | [] => [[]]
  | c :: s' =>
      if (c =? sep)%N then [] :: split s' sep
      else match split s' sep with
           | piece :: pieces => (c :: piece) :: pieces
           | [] => [[c]]
           end
  end.

(** [re.split(r'\s+', s)]: the pieces between maximal runs of whitespace,
    with an empty piece before a leading and after a trailing run. *)
Fixpoint re_split_ws (s : str) : list str :=
  match s with
  | [] => [[]]
  | c :: s' =>
      if Py_UNICODE_ISSPACE c then
        match s' with
        | c' :: _ => if Py_UNICODE_ISSPACE c' then re_split_ws s'
                     else [] :: re_split_ws s'
        | [] => [] :: re_split_ws s'
        end
      else match re_split_ws s' with
           | piece :: pieces => (c :: piece) :: pieces
           | [] => [[c]]
           end
  end.

(** [re.match(r'^\d+\.\d+\.\d+\.\d+', s)] as a truth value. A digit run is
    taken greedily: no decimal digit is a dot, so giving a digit back
    never makes the following [\.] match. *)
Fixpoint skip_digits (s : str) : str :=
  match s with
  | c :: s' => if Py_UNICODE_ISDECIMAL c then skip_digits s' else s
  | [] => []
  end.

Definition digits1 (s : str) : option str :=
  match s with
  | c :: s' => if Py_UNICODE_ISDECIMAL c then Some (skip_digits s') else None
  | [] => None
  end.

Definition dot (s : str) : option str :=
  match s with
  | c :: s' => if (c =? 0x2E)%N then Some s' else None
  | [] => None
  end.

Definition re_match_dotted_quad (s : str) : bool :=
  match digits1 s with
  | Some s1 =>
    match dot s1 with
    | Some s2 =>
      match digits1 s2 with
      | Some s3 =>
        match dot s3 with
        | Some s4 =>
          match digits1 s4 with
          | Some s5 =>
            match dot s5 with
            | Some s6 =>
              match digits1 s6 with Some _ => true | None => false end
            | None => false
            end
          | None => false
          end
        | None => false
        end
      | None => false
      end
    | None => false
    end
  | None => false
  end.

(** ** Exceptions *)

Inductive exc_class : Type :=
| IndexError | KeyError | ValueError | AttributeError | OSError
| CalledProcessError.

(** An exception object: its class and [str(e)]. All classes above derive
    from [Exception]. *)
Record exn : Type := Exception { exc_type : exc_class; exc_str : str }.

Inductive res (A : Type) : Type :=
| Ok (a : A)
| Raise (e : exn).
Arguments Ok {A} a.
Arguments Raise {A} e.

Definition res_bind {A B} (r : res A) (k : A -> res B) : res B :=
  match r with
  | Ok a => k a
  | Raise e => Raise e
  end.

Notation "x <- r ;; k" := (res_bind r (fun x => k))
  (at level 61, r at next level, right associativity).

(** [l[i]] for [i >= 0] *)
Definition getitem {A} (l : list A) (i : nat) : res A :=
  match nth_error l i with
  | Some x => Ok x
  | None => Raise (Exception IndexError (u "list index out of range"))
  end.

(** [for x in xs: s = body(s, x)] *)
Fixpoint for_each {A S} (body : S -> A -> res S) (xs : list A) (s : S)
  : res S :=
  match xs with
  | [] => Ok s
  | x :: xs' => s' <- body s x ;; for_each body xs' s'
  end.

(** ** Dicts *)

(** Keys are compared with [==]. *)
Class Key (K : Type) : Type := key_eqb : K -> K -> bool.

#[export] Instance Key_string : Key string := String.eqb.
#[export] Instance Key_str : Key str := str_eqb.

(** A dict in insertion order; every key occurs once. *)
Definition dict (K V : Type) := list (K * V).

(** [d.get(k)], [None] when the key is absent *)
Fixpoint dict_get {K V} `{Key K} (k : K) (d : dict K V) : option V :=
  match d with
  | [] => None
  | (k', v) :: d' => if key_eqb k k' then Some v else dict_get k d'
  end.

(** [d.get(k, default)] *)
Definition dict_get_default {K V} `{Key K} (k : K) (default : V)
  (d : dict K V) : V :=
  match dict_get k d with
  | Some v => v
  | None => default
  end.

(** [k in d] *)
Definition dict_mem {K V} `{Key K} (k : K) (d : dict K V) : bool :=
  match dict_get k d with
  | Some _ => true
  | None => false
  end.

(** [d[k]]; the message of the KeyError is never read. *)
Definition dict_getitem {K V} `{Key K} (k : K) (d : dict K V) : res V :=
  match dict_get k d with
  | Some v => Ok v
  | None => Raise (Exception KeyError (u "key"))
  end.

(** [d[k] = v]: an existing key keeps its place, a new key goes last. *)
Fixpoint dict_set {K V} `{Key K} (k : K) (v : V) (d : dict K V) : dict K V :=
  match d with
  | [] => [(k, v)]
  | (k', v') :: d' =>
      if key_eqb k k' then (k', v) :: d' else (k', v') :: dict_set k v d'
  end.

(** A route record, as the parsers build it. *)
Definition route := dict string str.

(** ** The route parsers *)

(** [parts[4] if len(parts) > 4 else ""] *)
Definition windows_metric (parts : list str) : res str :=
  if 4 <? length parts then getitem parts 4 else Ok (u "").

(** [parts[5] if len(parts) > 5 else ""] *)
Definition unix_interface (parts : list str) : res str :=
  if 5 <? length parts then getitem parts 5 else Ok (u "").

(** The body of the loop of [parse_windows_route]. *)
Definition windows_line (routes : list route) (line : str)
  : res (list route) :=
  let line := strip line in
  if startswith line (u "0.0.0.0") then
    let parts := re_split_ws line in
    if 5 <=? length parts then
      destination <- getitem parts 0 ;;
      netmask <- getitem parts 1 ;;
      gateway <- getitem parts 2 ;;
      interface <- getitem parts 3 ;;
      metric <- windows_metric parts ;;
      Ok (routes ++ [[ ("Destination", destination);
                       ("Netmask", netmask);
                       ("Gateway", gateway);
                       ("Interface", interface);
                       ("Metric", metric) ]])
    else Ok routes
  else Ok routes.

Definition parse_windows_route (output : str) : res (list route) :=
  for_each windows_line (split output 0x0A%N) [].

(** The body of the loop of [parse_unix_route]. *)
Definition unix_line (routes : list route) (line : str) : res (list route) :=
  let line := strip line in
  if startswith line (u "default") || startswith line (u "0.0.0.0") then
    let parts := re_split_ws line in
    if 4 <=? length parts then
      parts0 <- getitem parts 0 ;;
      destination <-
        (if str_eqb parts0 (u "default") then Ok (u "default")
         else getitem parts 0) ;;
      gateway <- getitem parts 1 ;;
      genmask <- (if 2 <? length parts then getitem parts 2 else Ok (u "")) ;;
      flags <- (if 3 <? length parts then getitem parts 3 else Ok (u "")) ;;
      interface <- unix_interface parts ;;
      Ok (routes ++ [[ ("Destination", destination);
                       ("Gateway", gateway);
                       ("Genmask", genmask);
                       ("Flags", flags);
                       ("Interface", interface) ]])
    else Ok routes
  else if re_match_dotted_quad line then
    let parts := re_split_ws line in
    if 5 <=? length parts then
      destination <- getitem parts 0 ;;
      gateway <- getitem parts 1 ;;
      genmask <- getitem parts 2 ;;
      flags <- getitem parts 3 ;;
      interface <- unix_interface parts ;;
      Ok (routes ++ [[ ("Destination", destination);
                       ("Gateway", gateway);
                       ("Genmask", genmask);
                       ("Flags", flags);
                       ("Interface", interface) ]])
    else Ok routes
  else Ok routes.

Definition parse_unix_route (output : str) : res (list route) :=
  for_each unix_line (split output 0x0A%N) [].

(** ** The host *)

(** Address family tags of [netifaces]; their numbers depend on the
    platform and are never used. *)
Inductive family : Type :=
| AF_INET | AF_INET6 | AF_LINK | AF_OTHER (n : N).

Definition family_eqb (a b : family) : bool :=
  match a, b with
  | AF_INET, AF_INET | AF_INET6, AF_INET6 | AF_LINK, AF_LINK => true
  | AF_OTHER n, AF_OTHER m => (n =? m)%N
  | _, _ => false
  end.

#[export] Instance Key_family : Key family := family_eqb.

(** What [netifaces.ifaddresses(name)] returns: per family, a list of
    address dicts with keys such as 'addr', 'netmask', 'broadcast'. *)
Definition ifaddresses_t := dict family (list (dict string str)).

(** The value under 'default' of [netifaces.gateways()]: per family, a
    tuple (gateway address, interface name). [None] when the key is
    missing. *)
Definition gateways_t := option (dict family (list str)).

(** Everything the program asks of its environment. A call returns or
    raises an exception.
    [check_output cmd] is
    [subprocess.check_output(cmd, shell=True).decode('utf-8', 'ignore')]. *)
Record Host : Type := {
  platform_system : str;
  check_output : str -> res str;
  netifaces_interfaces : res (list str);
  netifaces_ifaddresses : str -> res ifaddresses_t;
  netifaces_gateways : res gateways_t
}.

(** ** The analyzer object *)

(** An entry of [interface_details]: the dict literal with the keys
    'IP', 'Netmask', 'MAC', 'Broadcast'; 'MAC' may be [None]. *)
Record details : Type := {
  IP : str;
  Netmask : str;
  MAC : option str;
  Broadcast : str
}.

(** [routing_table] holds a list of route dicts or a dict. *)
Inductive routing : Type :=
| RouteList (routes : list route)
| RouteDict (d : dict string str).

Record NetworkAnalyzer : Type := {
  system : str;
  interface_details : dict str details;
  routing_table : routing;
  arp_table : str;
  dns_info : str;
  gateway_info : dict family (list str)
}.

(** [PrettyTable]: [add_row] checks the row against the header. *)
Record PrettyTable : Type := {
  field_names : list str;
  align : str;
  rows : list (list str)
}.

Inductive printed : Type :=
| Text (s : str)
| Table (t : PrettyTable).

(** The state a method runs in: the object, the shell commands run so
    far and what has been printed, both oldest first. *)
Record World : Type := {
  self : NetworkAnalyzer;
  invoked : list str;
  stdout : list printed
}.

Definition set_self (f : NetworkAnalyzer -> NetworkAnalyzer) (w : World)
  : World :=
  {| self := f (self w); invoked := invoked w; stdout := stdout w |}.

Definition add_invoked (cmd : str) (w : World) : World :=
  {| self := self w; invoked := invoked w ++ [cmd]; stdout := stdout w |}.

Definition add_stdout (p : printed) (w : World) : World :=
  {| self := self w; invoked := invoked w; stdout := stdout w ++ [p] |}.

Definition M (A : Type) : Type := World -> res A * World.

Definition ret {A} (a : A) : M A := fun w => (Ok a, w).

Definition raise {A} (e : exn) : M A := fun w => (Raise e, w).

Definition bind {A B} (m : M A) (k : A -> M B) : M B :=
  fun w =>
    match m w with
    | (Ok a, w') => k a w'
    | (Raise e, w') => (Raise e, w')
    end.

Notation "x <~ m ;; k" := (bind m (fun x => k))
  (at level 61, m at next level, right associativity).
Notation "m ;;; k" := (bind m (fun _ => k))
  (at level 61, right associativity).

(** A call of code that has no access to the state. *)
Definition lift {A} (r : res A) : M A := fun w => (r, w).

(** [try: body / except Exception as e: handler(e)] *)
Definition try_except {A} (body : M A) (handler : exn -> M A) : M A :=
  fun w =>
    match body w with
    | (Ok a, w') => (Ok a, w')
    | (Raise e, w') => handler e w'
    end.

Definition get_self : M NetworkAnalyzer := fun w => (Ok (self w), w).

Definition update_self (f : NetworkAnalyzer -> NetworkAnalyzer) : M unit :=
  fun w => (Ok tt, set_self f w).

Definition print (p : printed) : M unit :=
  fun w => (Ok tt, add_stdout p w).

Definition exc_class_eqb (a b : exc_class) : bool :=
  match a, b with
  | IndexError, IndexError | KeyError, KeyError | ValueError, ValueError
  | AttributeError, AttributeError | OSError, OSError
  | CalledProcessError, CalledProcessError => true
  | _, _ => false
  end.

(** [try: body / except (c1, c2, ...): handler] without state *)
Definition try_except_of {A} (classes : list exc_class) (body : res A)
  (handler : res A) : res A :=
  match body with
  | Ok a => Ok a
  | Raise e =>
      if existsb (exc_class_eqb (exc_type e)) classes then handler
      else Raise e
  end.

Definition add_row (t : PrettyTable) (row : list str) : res PrettyTable :=
  if length row =? length (field_names t) then
    Ok {| field_names := field_names t; align := align t;
          rows := rows t ++ [row] |}
  else Raise (Exception ValueError (u "Row has incorrect number of values")).

(** [s.center(width)] *)
Definition center (s : str) (width : nat) : str :=
  if width <=? length s then s
  else
    let marg := width - length s in
    let left := marg / 2 + (if Nat.odd marg && Nat.odd width then 1 else 0) in
    repeat 0x20%N left ++ s ++ repeat 0x20%N (marg - left).

Definition set_routing_table (v : routing) (a : NetworkAnalyzer) :=
  {| system := system a; interface_details := interface_details a;
     routing_table := v; arp_table := arp_table a; dns_info := dns_info a;
     gateway_info := gateway_info a |}.

Definition set_interface_details (v : dict str details) (a : NetworkAnalyzer) :=
  {| system := system a; interface_details := v;
     routing_table := routing_table a; arp_table := arp_table a;
     dns_info := dns_info a; gateway_info := gateway_info a |}.

Definition set_arp_table (v : str) (a : NetworkAnalyzer) :=
  {| system := system a; interface_details := interface_details a;
     routing_table := routing_table a; arp_table := v; dns_info := dns_info a;
     gateway_info := gateway_info a |}.

Definition set_dns_info (v : str) (a : NetworkAnalyzer) :=
  {| system := system a; interface_details := interface_details a;
     routing_table := routing_table a; arp_table := arp_table a;
     dns_info := v; gateway_info := gateway_info a |}.

Definition set_gateway_info (v : dict family (list str)) (a : NetworkAnalyzer) :=
  {| system := system a; interface_details := interface_details a;
     routing_table := routing_table a; arp_table := arp_table a;
     dns_info := dns_info a; gateway_info := v |}.

(** ** The methods of [NetworkAnalyzer] *)

Section Analyzer.

Variable host : Host.

(** [__init__] *)
Definition init : NetworkAnalyzer :=
  {| system := platform_system host;
     interface_details := [];
     routing_table := RouteList [];
     arp_table := u "";
     dns_info := u "";
     gateway_info := [] |}.

(** One shell command: recorded, then answered by the host. *)
Definition subprocess_check_output (cmd : str) : M str :=
  fun w => (check_output host cmd, add_invoked cmd w).

Definition get_windows_routing_table : M routing :=
  try_except
    (result <~ subprocess_check_output (u "route print") ;;
     routes <~ lift (parse_windows_route result) ;;
     ret (RouteList routes))
    (fun e => ret (RouteDict [("error", exc_str e)])).

Definition get_unix_routing_table : M routing :=
  try_except
    (result <~ subprocess_check_output (u "netstat -rn") ;;
     routes <~ lift (parse_unix_route result) ;;
     ret (RouteList routes))
    (fun e => ret (RouteDict [("error", exc_str e)])).

Definition get_routing_table : M routing :=
  a <~ get_self ;;
  if str_eqb (system a) (u "Windows") then get_windows_routing_table
  else if existsb (str_eqb (system a)) [u "Linux"; u "Darwin"] then
    get_unix_routing_table
  else ret (RouteDict [("error", u "Unsupported operating system")]).

(** The body of the loop of [get_interface_details], with its
    [try ... except (ValueError, KeyError): continue]. *)
Definition interface_entry (interfaces : dict str details) (interface : str)
  : res (dict str details) :=
  try_except_of [ValueError; KeyError]
    (addrs <- netifaces_ifaddresses host interface ;;
     if dict_mem AF_INET addrs then
       inet <- dict_getitem AF_INET addrs ;;
       inet0 <- getitem inet 0 ;;
       ip <- dict_getitem "addr" inet0 ;;
       inet <- dict_getitem AF_INET addrs ;;
       inet0 <- getitem inet 0 ;;
       netmask <- dict_getitem "netmask" inet0 ;;
       mac <- (if dict_mem AF_LINK addrs then
                 link <- dict_getitem AF_LINK addrs ;;
                 link0 <- getitem link 0 ;;
                 addr <- dict_getitem "addr" link0 ;;
                 Ok (Some addr)
               else Ok None) ;;
       inet <- dict_getitem AF_INET addrs ;;
       inet0 <- getitem inet 0 ;;
       Ok (dict_set interface
             {| IP := ip; Netmask := netmask; MAC := mac;
                Broadcast := dict_get_default "broadcast" (u "N/A") inet0 |}
             interfaces)
     else Ok interfaces)
    (Ok interfaces).

Definition get_interface_details : res (dict str details) :=
  names <- netifaces_interfaces host ;;
  for_each interface_entry names [].

Definition get_arp_table : M str :=
  try_except
    (a <~ get_self ;;
     if str_eqb (system a) (u "Windows") then
       subprocess_check_output (u "arp -a")
     else subprocess_check_output (u "arp -n"))
    (fun e => ret (u "Error getting ARP table: " ++ exc_str e)).

Definition get_dns_info : M str :=
  try_except
    (a <~ get_self ;;
     if str_eqb (system a) (u "Windows") then
       subprocess_check_output (u "ipconfig /all")
     else subprocess_check_output (u "cat /etc/resolv.conf"))
    (fun e => ret (u "Error getting DNS info: " ++ exc_str e)).

Definition collect_all_info : M unit :=
  v <~ get_routing_table ;;
  update_self (set_routing_table v) ;;;
  v <~ lift get_interface_details ;;
  update_self (set_interface_details v) ;;;
  v <~ get_arp_table ;;
  update_self (set_arp_table v) ;;;
  v <~ get_dns_info ;;
  update_self (set_dns_info v) ;;;
  gateways <~ lift (netifaces_gateways host) ;;
  update_self (set_gateway_info
                 (match gateways with Some d => d | None => [] end)).

End Analyzer.

(** ** Display *)

(** The three lines that open a section: [fill] is the rule character. *)
Definition banner (fill : char) (title : string) : M unit :=
  print (Text ([0x0A%N] ++ repeat fill 80)) ;;;
  print (Text (center (u title) 80)) ;;;
  print (Text (repeat fill 80)).

Definition new_table (names : list string) : PrettyTable :=
  {| field_names := map u names; align := u "l"; rows := [] |}.

(** The row [display_routing_table] builds from one route. *)
Definition route_row (route : route) : list str :=
  [ dict_get_default "Destination" (u "N/A") route;
    dict_get_default "Gateway" (u "N/A") route;
    dict_get_default "Netmask"
      (dict_get_default "Genmask" (u "N/A") route) route;
    dict_get_default "Interface" (u "N/A") route;
    dict_get_default "Metric"
      (dict_get_default "Flags" (u "N/A") route) route ].

Definition display_routing_table : M unit :=
  banner 0x2D%N "ROUTING TABLE" ;;;
  a <~ get_self ;;
  match routing_table a with
  | RouteDict d =>
      if dict_mem "error" d then
        error <~ lift (dict_getitem "error" d) ;;
        print (Text ([0x0A%N] ++ u "Error: " ++ error))
      else
        (* the loop runs over the keys of the dict, which are str *)
        let table :=
          new_table ["Destination"; "Gateway"; "Netmask"; "Interface";
                     "Metric/Flags"] in
        match d with
        | [] => print (Table table)
        | _ :: _ =>
            raise (Exception AttributeError
                     (u "'str' object has no attribute 'get'"))
        end
  | RouteList routes =>
      table <~ lift (for_each (fun t route => add_row t (route_row route))
                       routes
                       (new_table ["Destination"; "Gateway"; "Netmask";
                                   "Interface"; "Metric/Flags"])) ;;
      print (Table table)
  end.

Definition interface_row (item : str * details) : list str :=
  [ fst item;
    IP (snd item);
    Netmask (snd item);
    match MAC (snd item) with
    | Some (c :: mac) => c :: mac
    | Some [] | None => u "N/A"
    end;
    Broadcast (snd item) ].

Definition display_interfaces : M unit :=
  banner 0x2D%N "NETWORK INTERFACES" ;;;
  a <~ get_self ;;
  match interface_details a with
  | [] => print (Text (u "No interface information available"))
  | items =>
      table <~ lift (for_each (fun t item => add_row t (interface_row item))
                       items
                       (new_table ["Interface"; "IP Address"; "Netmask";
                                   "MAC Address"; "Broadcast"])) ;;
      print (Table table)
  end.

Definition gateway_row (t : PrettyTable) (item : family * list str)
  : res PrettyTable :=
  if 2 <=? length (snd item) then
    kind <- Ok (if key_eqb (fst item) AF_INET then u "IPv4" else u "IPv6") ;;
    gateway <- getitem (snd item) 0 ;;
    interface <- getitem (snd item) 1 ;;
    add_row t [kind; gateway; interface]
  else Ok t.

Definition display_gateways : M unit :=
  banner 0x2D%N "DEFAULT GATEWAYS" ;;;
  a <~ get_self ;;
  match gateway_info a with
  | [] => print (Text (u "No gateway information available"))
  | items =>
      table <~ lift (for_each gateway_row items
                       (new_table ["Type"; "Gateway IP"; "Interface"])) ;;
      print (Table table)
  end.

Definition display_arp_table : M unit :=
  banner 0x2D%N "ARP TABLE" ;;;
  a <~ get_self ;;
  print (Text (arp_table a)).

Definition display_dns_info : M unit :=
  banner 0x2D%N "DNS INFORMATION" ;;;
  a <~ get_self ;;
  print (Text (dns_info a)).

Definition display_all_info : M unit :=
  banner 0x3D%N "NETWORK INFORMATION TOOL" ;;;
  display_routing_table ;;;
  display_interfaces ;;;
  display_gateways ;;;
  display_arp_table ;;;
  display_dns_info.

(** The state the script starts in: a fresh object, nothing run, nothing
    printed. *)
Definition start (host : Host) : World :=
  {| self := init host; invoked := []; stdout := [] |}.

(** The script body after the dependency check. *)
Definition main (host : Host) : res unit * World :=
  (collect_all_info host ;;; display_all_info) (start host).

(** ** The parsers as the specification describes them *)

(** The lines of a text, each trimmed. *)
Definition trimmed_lines (output : str) : list str :=
  map strip (split output 0x0A%N).

(** One or more decimal digits. *)
Definition digit_run (s : str) : Prop :=
  s <> [] /\ forallb Py_UNICODE_ISDECIMAL s = true.

(** The strings a match of [\d+\.\d+\.\d+\.\d+] at position 0 exists
    for: four digit runs separated by dots, then anything. *)
Definition dotted_quad_prefix (s : str) : Prop :=
  exists a b c d rest,
    digit_run a /\ digit_run b /\ digit_run c /\ digit_run d /\
    s = a ++ 0x2E%N :: b ++ 0x2E%N :: c ++ 0x2E%N :: d ++ rest.

(** Section 4.3: a trimmed line qualifies when it starts with 0.0.0.0 and
    has at least 5 tokens. *)
Definition windows_qualifies (line : str) : bool :=
  startswith line (u "0.0.0.0") && (5 <=? length (re_split_ws line)).

(** Section 4.4: case A needs 4 tokens, case B (a dotted quad that is not
    case A) needs 5. *)
Definition unix_case_a (line : str) : bool :=
  startswith line (u "default") || startswith line (u "0.0.0.0").

Definition unix_qualifies (line : str) : bool :=
  if unix_case_a line then 4 <=? length (re_split_ws line)
  else re_match_dotted_quad line && (5 <=? length (re_split_ws line)).

(** Tokens 0 to 4, by position. *)
Definition windows_record (line : str) : route :=
  let parts := re_split_ws line in
  [ ("Destination", nth 0 parts []); ("Netmask", nth 1 parts []);
    ("Gateway", nth 2 parts []); ("Interface", nth 3 parts []);
    ("Metric", nth 4 parts []) ].

(** Tokens 0 to 3 and token 5; a missing token reads as the empty
    string. *)
Definition unix_record (line : str) : route :=
  let parts := re_split_ws line in
  [ ("Destination", nth 0 parts []); ("Gateway", nth 1 parts []);
    ("Genmask", nth 2 parts []); ("Flags", nth 3 parts []);
    ("Interface", nth 5 parts []) ].

(** The shell command each collection step runs on a platform. *)
Definition route_command (platform : str) : option str :=
  if str_eqb platform (u "Windows") then Some (u "route print")
  else if existsb (str_eqb platform) [u "Linux"; u "Darwin"] then
    Some (u "netstat -rn")
  else None.

Definition route_parser (platform : str) : str -> res (list route) :=
  if str_eqb platform (u "Windows") then parse_windows_route
  else parse_unix_route.

Definition arp_command (platform : str) : str :=
  if str_eqb platform (u "Windows") then u "arp -a" else u "arp -n".

Definition dns_command (platform : str) : str :=
  if str_eqb platform (u "Windows") then u "ipconfig /all"
  else u "cat /etc/resolv.conf".

(** ** The collection and display steps in closed form *)

(** An interface has an IPv4 address when its address table has the key
    AF_INET. *)
Definition has_ipv4 (host : Host) (name : str) : Prop :=
  exists addrs,
    netifaces_ifaddresses host name = Ok addrs /\
    dict_mem AF_INET addrs = true.

Definition unsupported : routing :=
  RouteDict [("error", u "Unsupported operating system")].

(** What the routing step stores, by the outcome of its command. *)
Definition routing_section (host : Host) (platform : str) : routing :=
  match route_command platform with
  | None => unsupported
  | Some cmd =>
      match check_output host cmd with
      | Ok text =>
          match route_parser platform text with
          | Ok routes => RouteList routes
          | Raise e => RouteDict [("error", exc_str e)]
          end
      | Raise e => RouteDict [("error", exc_str e)]
      end
  end.

(** What the ARP and DNS steps store, by the outcome of their command. *)
Definition arp_section (host : Host) (platform : str) : str :=
  match check_output host (arp_command platform) with
  | Ok text => text
  | Raise e => u "Error getting ARP table: " ++ exc_str e
  end.

Definition dns_section (host : Host) (platform : str) : str :=
  match check_output host (dns_command platform) with
  | Ok text => text
  | Raise e => u "Error getting DNS info: " ++ exc_str e
  end.

Definition add_invoked_opt (cmd : option str) (w : World) : World :=
  match cmd with
  | Some c => add_invoked c w
  | None => w
  end.

(** [m] returns, leaves the object and the command log alone and adds
    [out] to standard output. *)
Definition prints (m : M unit) (w : World) (out : list printed) : Prop :=
  m w = (Ok tt, {| self := self w; invoked := invoked w;
                   stdout := stdout w ++ out |}).

Definition banner_lines (fill : char) (title : string) : list printed :=
  [ Text ([0x0A%N] ++ repeat fill 80); Text (center (u title) 80);
    Text (repeat fill 80) ].

Definition routing_fields : list string :=
  ["Destination"; "Gateway"; "Netmask"; "Interface"; "Metric/Flags"].

(** ** Sample inputs and hosts *)

(** The line of C2 and its seven tokens. *)
Definition default_line : str := u "default  10.0.0.1  UG  0  0  0  wlan0".

(** A qualifying line of four tokens. *)
Definition short_default_line : str := u "default 10.0.0.1 UG 0".

(** A host that reports the platform FreeBSD; every command would
    succeed if it were run. *)
Definition freebsd_host : Host :=
  {| platform_system := u "FreeBSD";
     check_output := fun _ => Ok (u "0.0.0.0 0.0.0.0 10.0.0.1 em0 1");
     netifaces_interfaces := Ok [];
     netifaces_ifaddresses := fun _ => Ok [];
     netifaces_gateways := Ok (Some []) |}.

(** A host with a loopback-less tunnel: "eth0" has IPv4 and link
    addresses, "tun0" has only an IPv6 address. *)
Definition two_interface_host : Host :=
  {| platform_system := u "Linux";
     check_output := fun _ => Ok (u "");
     netifaces_interfaces := Ok [u "eth0"; u "tun0"];
     netifaces_ifaddresses := fun name =>
       if str_eqb name (u "eth0") then
         Ok [ (AF_LINK, [[("addr", u "aa:bb:cc:dd:ee:ff")]]);
              (AF_INET, [[("addr", u "192.168.1.10");
                          ("netmask", u "255.255.255.0");
                          ("broadcast", u "192.168.1.255")]]) ]
       else if str_eqb name (u "tun0") then
         Ok [ (AF_INET6, [[("addr", u "fe80::1"); ("netmask", u "ffff::")]]) ]
       else Raise (Exception ValueError
                     (u "You must specify a valid interface name."));
     netifaces_gateways :=
       Ok (Some [(AF_INET, [u "192.168.1.1"; u "eth0"])]) |}.

Definition arp_failure : exn :=
  Exception CalledProcessError
    (u "Command 'arp -n' returned non-zero exit status 127.").

(** A Linux shell on which the route and DNS commands succeed and the ARP
    command fails. *)
Definition linux_shell (cmd : str) : res str :=
  if str_eqb cmd (u "netstat -rn") then Ok (u "default 10.0.0.1 UG 0 0 eth0")
  else if str_eqb cmd (u "arp -n") then Raise arp_failure
  else Ok (u "nameserver 10.0.0.1").

Definition eth0_addresses : ifaddresses_t :=
  [ (AF_LINK, [[("addr", u "aa:bb:cc:dd:ee:ff")]]);
    (AF_INET, [[("addr", u "10.0.0.7"); ("netmask", u "255.255.255.0")]]) ].

(** Only the ARP command fails. *)
Definition arp_failure_host : Host :=
  {| platform_system := u "Linux";
     check_output := linux_shell;
     netifaces_interfaces := Ok [u "eth0"];
     netifaces_ifaddresses := fun _ => Ok eth0_addresses;
     netifaces_gateways := Ok (Some [(AF_INET, [u "10.0.0.1"; u "eth0"])]) |}.

(** The ARP command fails and so does the gateway call. *)
Definition gateway_error_host : Host :=
  {| platform_system := u "Linux";
     check_output := linux_shell;
     netifaces_interfaces := Ok [u "eth0"];
     netifaces_ifaddresses := fun _ => Ok eth0_addresses;
     netifaces_gateways :=
       Raise (Exception OSError (u "[Errno 12] Cannot allocate memory")) |}.

(** The ARP command fails and the address lookup raises OSError. *)
Definition address_error_host : Host :=
  {| platform_system := u "Linux";
     check_output := linux_shell;
     netifaces_interfaces := Ok [u "eth0"];
     netifaces_ifaddresses := fun _ =>
       Raise (Exception OSError (u "[Errno 12] Cannot allocate memory"));
     netifaces_gateways := Ok (Some [(AF_INET, [u "10.0.0.1"; u "eth0"])]) |}.

(** ** Words *)

(** No character of [s] is whitespace. *)
Definition no_space (s : str) : bool :=
  forallb (fun c => negb (Py_UNICODE_ISSPACE c)) s.

(** A non-empty string without whitespace. *)
Definition word (s : str) : Prop := s <> [] /\ no_space s = true.

(** The first token of a line. *)
Definition first_token (line : str) : str := nth 0 (re_split_ws line) [].

(** The record binds [key] to a word. *)
Definition has_word (record : route) (key : string) : Prop :=
  exists value, dict_get key record = Some value /\ word value.

(** ** Interface entries *)

(** The entry [get_interface_details] builds from an address table: the
    address and netmask of the first IPv4 address, its broadcast address
    or "N/A", and the address of the first link-layer entry, [None]
    without the key AF_LINK. *)
Definition entry_of (addrs : ifaddresses_t) (d : details) : Prop :=
  exists inet0 others,
    dict_get AF_INET addrs = Some (inet0 :: others) /\
    dict_get "addr" inet0 = Some (IP d) /\
    dict_get "netmask" inet0 = Some (Netmask d) /\
    Broadcast d = dict_get_default "broadcast" (u "N/A") inet0 /\
    match dict_get AF_LINK addrs with
    | None => MAC d = None
    | Some links =>
        exists link0 more mac,
          links = link0 :: more /\
          dict_get "addr" link0 = Some mac /\ MAC d = Some mac
    end.

(** An interface the loop passes over: its lookup raises ValueError or
    KeyError, or its address table has no IPv4 entry. *)
Definition passed_over (host : Host) (name : str) : Prop :=
  (exists e,
      netifaces_ifaddresses host name = Raise e /\
      (exc_type e = ValueError \/ exc_type e = KeyError))
  \/ (exists addrs,
         netifaces_ifaddresses host name = Ok addrs /\
         dict_mem AF_INET addrs = false).

(** A host on which "lo" has a complete address table, "tun0" has no
    IPv4 address and the lookup of "gone0" raises ValueError; "lo" is
    listed twice. *)
Definition lookup_host : Host :=
  {| platform_system := u "Linux";
     check_output := fun _ => Ok (u "");
     netifaces_interfaces := Ok [u "lo"; u "gone0"; u "tun0"; u "lo"];
     netifaces_ifaddresses := fun name =>
       if str_eqb name (u "lo") then
         Ok [ (AF_INET, [[("addr", u "127.0.0.1");
                          ("netmask", u "255.0.0.0")]]) ]
       else if str_eqb name (u "tun0") then
         Ok [ (AF_INET6, [[("addr", u "fe80::1")]]) ]
       else Raise (Exception ValueError
                     (u "You must specify a valid interface name."));
     netifaces_gateways := Ok (Some []) |}.

(** The same host without "gone0" in its list. *)
Definition lookup_host_short : Host :=
  {| platform_system := u "Linux";
     check_output := fun _ => Ok (u "");
     netifaces_interfaces := Ok [u "lo"; u "tun0"; u "lo"];
     netifaces_ifaddresses := netifaces_ifaddresses lookup_host;
     netifaces_gateways := Ok (Some []) |}.

Definition lo_details : details :=
  {| IP := u "127.0.0.1"; Netmask := u "255.0.0.0"; MAC := None;
     Broadcast := u "N/A" |}.

(** ** The commands of a collection pass *)

(** The shell commands a complete pass runs, in order. *)
Definition pass_commands (platform : str) : list str :=
  match route_command platform with
  | Some cmd => [cmd]
  | None => []
  end ++ [arp_command platform; dns_command platform].

(** The object a complete pass leaves behind. *)
Definition snapshot (host : Host) (platform : str)
  (interfaces : dict str details) (gateways : gateways_t) : NetworkAnalyzer :=
  {| system := platform;
     interface_details := interfaces;
     routing_table := routing_section host platform;
     arp_table := arp_section host platform;
     dns_info := dns_section host platform;
     gateway_info := match gateways with Some d => d | None => [] end |}.

(** ** What the display pass prints *)

Definition interface_fields : list string :=
  ["Interface"; "IP Address"; "Netmask"; "MAC Address"; "Broadcast"].

Definition gateway_fields : list string :=
  ["Type"; "Gateway IP"; "Interface"].

Definition table_of (fields : list string) (rows : list (list str))
  : printed :=
  Table {| field_names := map u fields; align := u "l"; rows := rows |}.

(** The cells of the row of a gateway tuple. *)
Definition gateway_cells (item : family * list str) : list str :=
  [ if family_eqb (fst item) AF_INET then u "IPv4" else u "IPv6";
    nth 0 (snd item) []; nth 1 (snd item) [] ].

(** What follows the banner of the routing section; [None] for a dict
    that is not empty and has no key "error". *)
Definition routing_output (r : routing) : option printed :=
  match r with
  | RouteList routes => Some (table_of routing_fields (map route_row routes))
  | RouteDict d =>
      match dict_get "error" d with
      | Some message => Some (Text ([0x0A%N] ++ u "Error: " ++ message))
      | None =>
          match d with
          | [] => Some (table_of routing_fields [])
          | _ :: _ => None
          end
      end
  end.

(** What follows the banner of the interface section. *)
Definition interfaces_output (items : dict str details) : printed :=
  match items with
  | [] => Text (u "No interface information available")
  | _ :: _ => table_of interface_fields (map interface_row items)
  end.

(** What follows the banner of the gateway section: a row for every
    tuple of at least two elements. *)
Definition gateways_output (items : dict family (list str)) : printed :=
  match items with
  | [] => Text (u "No gateway information available")
  | _ :: _ =>
      table_of gateway_fields
        (map gateway_cells
           (filter (fun item => 2 <=? length (snd item)) items))
  end.

(** Everything the display pass prints for an object whose routing
    section prints [routing]. *)
Definition display_output (a : NetworkAnalyzer) (routing : printed)
  : list printed :=
  banner_lines 0x3D%N "NETWORK INFORMATION TOOL"
  ++ (banner_lines 0x2D%N "ROUTING TABLE" ++ [routing])
  ++ (banner_lines 0x2D%N "NETWORK INTERFACES"
      ++ [interfaces_output (interface_details a)])
  ++ (banner_lines 0x2D%N "DEFAULT GATEWAYS"
      ++ [gateways_output (gateway_info a)])
  ++ (banner_lines 0x2D%N "ARP TABLE" ++ [Text (arp_table a)])
  ++ (banner_lines 0x2D%N "DNS INFORMATION" ++ [Text (dns_info a)]).

(** ** The printed route rows *)

(** The line test of the parser a platform uses. *)
Definition route_qualifies (platform : str) : str -> bool :=
  if str_eqb platform (u "Windows") then windows_qualifies
  else unix_qualifies.

(** The cells of the row printed for a qualifying line, by token index:
    0, 2, 1, 3, 4 on Windows and 0, 1, 2, 5, 3 elsewhere. *)
Definition route_columns (platform : str) (line : str) : list str :=
  let parts := re_split_ws line in
  if str_eqb platform (u "Windows") then
    [nth 0 parts []; nth 2 parts []; nth 1 parts []; nth 3 parts [];
     nth 4 parts []]
  else
    [nth 0 parts []; nth 1 parts []; nth 2 parts []; nth 5 parts [];
     nth 3 parts []].

(** A Windows host whose route command prints one default route. *)
Definition windows_host : Host :=
  {| platform_system := u "Windows";
     check_output := fun cmd =>
       if str_eqb cmd (u "route print") then
         Ok (u "  0.0.0.0  0.0.0.0  192.168.1.1  192.168.1.10  25")
       else Ok (u "");
     netifaces_interfaces := Ok [];
     netifaces_ifaddresses := fun _ => Ok [];
     netifaces_gateways := Ok None |}.

(** ** The dependency check and the script *)

(** Which of the two third-party modules can be imported. *)
Record Installation : Type := {
  has_netifaces : bool;
  has_prettytable : bool
}.

(** [for x in xs: body(x)] *)
Fixpoint for_in {A} (xs : list A) (body : A -> M unit) : M unit :=
  match xs with
  | [] => ret tt
  | x :: xs' => body x ;;; for_in xs' body
  end.

(** [check_dependencies]: each import that raises ImportError adds a
    line to [missing]. *)
Definition check_dependencies (site : Installation) : M bool :=
  let missing := [] in
  let missing :=
    if has_netifaces site then missing
    else missing ++ [u "netifaces (pip install netifaces)"] in
  let missing :=
    if has_prettytable site then missing
    else missing ++ [u "prettytable (pip install prettytable)"] in
  match missing with
  | _ :: _ =>
      print (Text (u "Missing dependencies:")) ;;;
      for_in missing (fun dep => print (Text (u "- " ++ dep))) ;;;
      ret false
  | [] => ret true
  end.

(** How a run of the file as a script ends. *)
Inductive outcome : Type :=
| ImportFailed (module : str)
| SystemExit (code : nat) (w : World)
| Ran (result : res unit) (w : World).

(** The file run as a script: the imports of lines 17 and 18, then the
    body under [if __name__ == "__main__"]. *)
Definition script (site : Installation) (host : Host) : outcome :=
  if negb (has_netifaces site) then ImportFailed (u "netifaces")
  else if negb (has_prettytable site) then ImportFailed (u "prettytable")
  else
    match check_dependencies site (start host) with
    | (Ok true, w) =>
        let (result, w') := (collect_all_info host ;;; display_all_info) w in
        Ran result w'
    | (Ok false, w) => SystemExit 1 w
    | (Raise e, w) => Ran (Raise e) w
    end.

(** The lines the check prints. *)
Definition missing_report (site : Installation) : list printed :=
  if has_netifaces site && has_prettytable site then []
  else
    Text (u "Missing dependencies:")
    :: (if has_netifaces site then []
        else [Text (u "- netifaces (pip install netifaces)")])
    ++ (if has_prettytable site then []
        else [Text (u "- prettytable (pip install prettytable)")]).

(** ** Whitespace *)

(** Every character of [s] is whitespace. *)
Definition all_space (s : str) : bool := forallb Py_UNICODE_ISSPACE s.

(** ** The parsers on a store of list objects *)

(** In the source [routes = []] makes a new list object,
    [routes.append(...)] changes that object in place and
    [return routes] hands out the object itself. Here a list object is a
    cell of a store, named by its index; the store stands beside the
    state of the program. The record dicts are never changed after they
    are built and stay values. *)
Definition ref := nat.

Record Store : Type := {
  world : World;
  lists : list (list route)
}.

Definition Prog (A : Type) : Type := Store -> res A * Store.

Definition prog_ret {A} (a : A) : Prog A := fun st => (Ok a, st).

Definition prog_bind {A B} (m : Prog A) (k : A -> Prog B) : Prog B :=
  fun st =>
    match m st with
    | (Ok a, st') => k a st'
    | (Raise e, st') => (Raise e, st')
    end.

Notation "x <~~ m ;; k" := (prog_bind m (fun x => k))
  (at level 61, m at next level, right associativity).

(** The list with its element at [i] replaced; unchanged when there is no
    such element. *)
Fixpoint list_update {A} (l : list A) (i : nat) (x : A) : list A :=
  match l, i with
  | [], _ => []
  | _ :: l', 0 => x :: l'
  | y :: l', S i' => y :: list_update l' i' x
  end.

(** [[]]: a new, empty list object, after all the existing ones. *)
Definition new_list : Prog ref :=
  fun st => (Ok (length (lists st)),
             {| world := world st; lists := lists st ++ [[]] |}).

(** One turn of a parser's loop on the list object [routes]: the loop
    body takes the object from its content before the turn to its content
    after it. A reference always names an object; without one the turn
    does nothing. *)
Definition turn (body : list route -> str -> res (list route))
  (routes : ref) (line : str) : Prog unit :=
  fun st =>
    match nth_error (lists st) routes with
    | Some content =>
        match body content line with
        | Ok content' =>
            (Ok tt, {| world := world st;
                       lists := list_update (lists st) routes content' |})
        | Raise e => (Raise e, st)
        end
    | None => (Ok tt, st)
    end.

(** [for line in lines: body(line)] *)
Fixpoint for_lines (lines : list str) (body : str -> Prog unit)
  : Prog unit :=
  match lines with
  | [] => prog_ret tt
  | line :: lines' => _ <~~ body line ;; for_lines lines' body
  end.

Definition parse_windows_route_on_store (output : str) : Prog ref :=
  routes <~~ new_list ;;
  _ <~~ for_lines (split output 0x0A%N) (turn windows_line routes) ;;
  prog_ret routes.

Definition parse_unix_route_on_store (output : str) : Prog ref :=
  routes <~~ new_list ;;
  _ <~~ for_lines (split output 0x0A%N) (turn unix_line routes) ;;
  prog_ret routes.

(** * Properties *)

(** ** The string primitives *)

Example split_lines :
  split (u "a b" ++ [0x0A%N] ++ u "c" ++ [0x0A%N]) 0x0A%N = [u "a b"; u "c"; u ""]
  /\ split (u "") 0x0A%N = [u ""].
Proof. split; reflexivity. Qed.

Example strip_both_ends :
  strip ([0x09%N] ++ u "  a b " ++ [0x0D%N]) = u "a b"
  /\ strip (u "   ") = u "".
Proof. split; reflexivity. Qed.

Example re_split_ws_runs :
  re_split_ws (u "a   b") = [u "a"; u "b"]
  /\ re_split_ws (u " a b ") = [u ""; u "a"; u "b"; u ""]
  /\ re_split_ws (u "  ") = [u ""; u ""]
  /\ re_split_ws (u "") = [u ""].
Proof. repeat split; reflexivity. Qed.

Example center_pads :
  center (u "ab") 5 = u "  ab " /\ center (u "abc") 6 = u " abc  "
  /\ center (u "abcdef") 4 = u "abcdef".
Proof. repeat split; reflexivity. Qed.

Lemma dot_is_not_decimal : Py_UNICODE_ISDECIMAL 0x2E%N = false.
Proof. reflexivity. Qed.

Lemma skip_digits_splits (s : str) :
  exists run,
    forallb Py_UNICODE_ISDECIMAL run = true /\ s = run ++ skip_digits s.
Proof.
  induction s as [|c s [run [Hrun Hs]]]; simpl.
  - exists []. split; reflexivity.
  - destruct (Py_UNICODE_ISDECIMAL c) eqn:Hc.
    + exists (c :: run). simpl. rewrite Hc, Hrun. split; [reflexivity|].
      f_equal. exact Hs.
    + exists []. split; reflexivity.
Qed.

Lemma skip_digits_stops_at_dot (run rest : str) :
  forallb Py_UNICODE_ISDECIMAL run = true ->
  skip_digits (run ++ 0x2E%N :: rest) = 0x2E%N :: rest.
Proof.
  induction run as [|c run IH]; simpl; intros Hrun.
  - reflexivity.
  - apply andb_true_iff in Hrun. destruct Hrun as [Hc Hrun].
    rewrite Hc. apply IH. exact Hrun.
Qed.

Lemma digits1_some (s rest : str) :
  digits1 s = Some rest -> exists run, digit_run run /\ s = run ++ rest.
Proof.
  destruct s as [|c s]; simpl; [discriminate|].
  destruct (Py_UNICODE_ISDECIMAL c) eqn:Hc; [|discriminate].
  intros H. injection H as <-.
  destruct (skip_digits_splits s) as [run [Hrun Hs]].
  exists (c :: run). split.
  - split; [discriminate|]. simpl. rewrite Hc, Hrun. reflexivity.
  - simpl. f_equal. exact Hs.
Qed.

Lemma digits1_before_dot (run rest : str) :
  digit_run run -> digits1 (run ++ 0x2E%N :: rest) = Some (0x2E%N :: rest).
Proof.
  intros [Hne Hrun]. destruct run as [|c run]; [contradiction|].
  simpl in *. apply andb_true_iff in Hrun. destruct Hrun as [Hc Hrun].
  rewrite Hc. rewrite skip_digits_stops_at_dot by exact Hrun. reflexivity.
Qed.

Lemma digits1_of_run (run rest : str) :
  digit_run run -> exists rest', digits1 (run ++ rest) = Some rest'.
Proof.
  intros [Hne Hrun]. destruct run as [|c run]; [contradiction|].
  simpl in *. apply andb_true_iff in Hrun. destruct Hrun as [Hc _].
  rewrite Hc. eexists. reflexivity.
Qed.

Lemma dot_some (s rest : str) : dot s = Some rest -> s = 0x2E%N :: rest.
Proof.
  destruct s as [|c s]; simpl; [discriminate|].
  destruct (c =? 0x2E)%N eqn:Hc; [|discriminate].
  apply N.eqb_eq in Hc. subst c. intros H. injection H as <-. reflexivity.
Qed.

(** The greedy matcher accepts exactly the strings the pattern matches
    at position 0. *)
Lemma re_match_dotted_quad_spec (s : str) :
  re_match_dotted_quad s = true <-> dotted_quad_prefix s.
Proof.
  unfold re_match_dotted_quad, dotted_quad_prefix. split.
  - destruct (digits1 s) as [s1|] eqn:H1; [|discriminate].
    destruct (dot s1) as [s2|] eqn:D1; [|discriminate].
    destruct (digits1 s2) as [s3|] eqn:H2; [|discriminate].
    destruct (dot s3) as [s4|] eqn:D2; [|discriminate].
    destruct (digits1 s4) as [s5|] eqn:H3; [|discriminate].
    destruct (dot s5) as [s6|] eqn:D3; [|discriminate].
    destruct (digits1 s6) as [s7|] eqn:H4; [|discriminate].
    intros _.
    apply digits1_some in H1, H2, H3, H4.
    apply dot_some in D1, D2, D3.
    destruct H1 as [a [Ha ->]], H2 as [b [Hb ->]], H3 as [c [Hc ->]],
      H4 as [d [Hd ->]].
    subst s1 s3 s5. exists a, b, c, d, s7.
    repeat (split; [assumption|]). reflexivity.
  - intros [a [b [c [d [rest [Ha [Hb [Hc [Hd ->]]]]]]]]].
    rewrite (digits1_before_dot a _ Ha). cbn [dot]. rewrite N.eqb_refl.
    rewrite (digits1_before_dot b _ Hb). cbn [dot]. rewrite N.eqb_refl.
    rewrite (digits1_before_dot c _ Hc). cbn [dot]. rewrite N.eqb_refl.
    destruct (digits1_of_run d rest Hd) as [rest' ->]. reflexivity.
Qed.

Example dotted_quads :
  re_match_dotted_quad (u "192.168.1.0  0.0.0.0") = true
  /\ re_match_dotted_quad (u "192.168.1") = false
  /\ re_match_dotted_quad (u "fe80::1") = false.
Proof. repeat split; reflexivity. Qed.

(** ** Lists, indexing and loops *)

Lemma getitem_nth {A} (l : list A) (i : nat) (d : A) :
  i < length l -> getitem l i = Ok (nth i l d).
Proof.
  intros Hlt. unfold getitem.
  rewrite (nth_error_nth' l d Hlt). reflexivity.
Qed.

(** A loop whose body only ever appends runs to the end and appends, in
    order, what each element contributes. *)
Lemma for_each_appends {A R} (body : list R -> A -> res (list R))
  (emit : A -> list R) :
  (forall acc x, body acc x = Ok (acc ++ emit x)) ->
  forall xs acc, for_each body xs acc = Ok (acc ++ flat_map emit xs).
Proof.
  intros Hbody xs. induction xs as [|x xs IH]; intros acc; simpl.
  - rewrite app_nil_r. reflexivity.
  - rewrite Hbody. simpl. rewrite IH, app_assoc. reflexivity.
Qed.

Lemma flat_map_select {A B R} (f : A -> B) (q : B -> bool) (r : B -> R)
  (xs : list A) :
  flat_map (fun x => if q (f x) then [r (f x)] else []) xs
  = map r (filter q (map f xs)).
Proof.
  induction xs as [|x xs IH]; simpl; [reflexivity|].
  destruct (q (f x)); simpl; rewrite IH; reflexivity.
Qed.

Lemma leb_ltb_pred (n m : nat) : (S n <=? m) = true -> (n <? m) = true.
Proof. intros H. apply Nat.ltb_lt. apply Nat.leb_le in H. lia. Qed.

(** ** One line of each parser *)

Lemma windows_metric_guarded (parts : list str) :
  5 <= length parts -> windows_metric parts = Ok (nth 4 parts []).
Proof.
  intros Hlen. unfold windows_metric.
  replace (4 <? length parts) with true
    by (symmetry; apply Nat.ltb_lt; lia).
  apply (getitem_nth parts 4 ([] : str)). lia.
Qed.

Lemma unix_interface_total (parts : list str) :
  unix_interface parts = Ok (nth 5 parts []).
Proof.
  unfold unix_interface. destruct (5 <? length parts) eqn:Hlt.
  - apply (getitem_nth parts 5 ([] : str)). apply Nat.ltb_lt. exact Hlt.
  - apply Nat.ltb_ge in Hlt. rewrite nth_overflow by exact Hlt. reflexivity.
Qed.

Lemma windows_line_emits (routes : list route) (line : str) :
  windows_line routes line
  = Ok (routes ++ if windows_qualifies (strip line)
                  then [windows_record (strip line)] else []).
Proof.
  unfold windows_line, windows_qualifies, windows_record.
  destruct (startswith (strip line) (u "0.0.0.0")); cbv beta iota zeta;
    [|rewrite app_nil_r; reflexivity].
  rewrite andb_true_l.
  destruct (5 <=? length (re_split_ws (strip line))) eqn:Hlen;
    [|rewrite app_nil_r; reflexivity].
  apply Nat.leb_le in Hlen.
  rewrite (getitem_nth _ 0 ([] : str)), (getitem_nth _ 1 ([] : str)),
    (getitem_nth _ 2 ([] : str)), (getitem_nth _ 3 ([] : str)) by lia.
  unfold res_bind at 1 2 3 4.
  rewrite windows_metric_guarded by exact Hlen. reflexivity.
Qed.

Lemma unix_destination (parts0 : str) :
  (if str_eqb parts0 (u "default") then Ok (u "default") else Ok parts0)
  = Ok parts0.
Proof.
  unfold str_eqb.
  destruct (list_eq_dec N.eq_dec parts0 (u "default")) as [->|_];
    reflexivity.
Qed.

Lemma unix_line_emits (routes : list route) (line : str) :
  unix_line routes line
  = Ok (routes ++ if unix_qualifies (strip line)
                  then [unix_record (strip line)] else []).
Proof.
  unfold unix_line, unix_qualifies, unix_case_a, unix_record.
  destruct (startswith (strip line) (u "default")
            || startswith (strip line) (u "0.0.0.0")); cbv beta iota zeta.
  - destruct (4 <=? length (re_split_ws (strip line))) eqn:Hlen;
      [|rewrite app_nil_r; reflexivity].
    apply Nat.leb_le in Hlen.
    assert (H0 : getitem (re_split_ws (strip line)) 0
                 = Ok (nth 0 (re_split_ws (strip line)) []))
      by (apply getitem_nth; lia).
    rewrite H0. unfold res_bind at 1.
    rewrite unix_destination.
    rewrite (getitem_nth _ 1 ([] : str)) by lia.
    replace (2 <? length (re_split_ws (strip line))) with true
      by (symmetry; apply Nat.ltb_lt; lia).
    replace (3 <? length (re_split_ws (strip line))) with true
      by (symmetry; apply Nat.ltb_lt; lia).
    rewrite (getitem_nth _ 2 ([] : str)), (getitem_nth _ 3 ([] : str)) by lia.
    rewrite unix_interface_total. reflexivity.
  - destruct (re_match_dotted_quad (strip line)); cbv beta iota zeta;
      [|rewrite app_nil_r; reflexivity].
    rewrite andb_true_l.
    destruct (5 <=? length (re_split_ws (strip line))) eqn:Hlen;
      [|rewrite app_nil_r; reflexivity].
    apply Nat.leb_le in Hlen.
    rewrite (getitem_nth _ 0 ([] : str)), (getitem_nth _ 1 ([] : str)),
      (getitem_nth _ 2 ([] : str)), (getitem_nth _ 3 ([] : str)) by lia.
    rewrite unix_interface_total. reflexivity.
Qed.

(** ** The parsers in closed form *)

Lemma parse_windows_route_closed (output : str) :
  parse_windows_route output
  = Ok (map windows_record (filter windows_qualifies (trimmed_lines output))).
Proof.
  unfold parse_windows_route, trimmed_lines.
  rewrite (for_each_appends windows_line
             (fun line => if windows_qualifies (strip line)
                          then [windows_record (strip line)] else []))
    by apply windows_line_emits.
  simpl. rewrite flat_map_select. reflexivity.
Qed.

Lemma parse_unix_route_closed (output : str) :
  parse_unix_route output
  = Ok (map unix_record (filter unix_qualifies (trimmed_lines output))).
Proof.
  unfold parse_unix_route, trimmed_lines.
  rewrite (for_each_appends unix_line
             (fun line => if unix_qualifies (strip line)
                          then [unix_record (strip line)] else []))
    by apply unix_line_emits.
  simpl. rewrite flat_map_select. reflexivity.
Qed.

(** ** Route parsing *)

(** Section 8, case B: tokens 0 to 3 and token 5 of a dotted-quad line. *)
Example unix_network_route :
  parse_unix_route
    (u "192.168.1.0  0.0.0.0  255.255.255.0  U  0  0  0  eth0")
  = Ok [[ ("Destination", u "192.168.1.0"); ("Gateway", u "0.0.0.0");
          ("Genmask", u "255.255.255.0"); ("Flags", u "U");
          ("Interface", u "0") ]].
Proof. vm_compute. reflexivity. Qed.

(** A header line and a short line are dropped; a repeated line gives a
    repeated record, and the records keep the order of the text. *)
Example unix_keeps_order_and_duplicates :
  parse_unix_route
    (u "Destination Gateway Genmask Flags" ++ [0x0A%N]
     ++ u "9.9.9.0 0.0.0.0 255.255.255.0 U 0 eth1" ++ [0x0A%N]
     ++ u "0.0.0.0 10.0.0.1" ++ [0x0A%N]
     ++ u "1.1.1.0 0.0.0.0 255.255.255.0 U 0 eth0" ++ [0x0D%N; 0x0A%N]
     ++ u "9.9.9.0 0.0.0.0 255.255.255.0 U 0 eth1")
  = Ok [ unix_record (u "9.9.9.0 0.0.0.0 255.255.255.0 U 0 eth1");
         unix_record (u "1.1.1.0 0.0.0.0 255.255.255.0 U 0 eth0");
         unix_record (u "9.9.9.0 0.0.0.0 255.255.255.0 U 0 eth1") ].
Proof. vm_compute. reflexivity. Qed.

(** C1. For every input text, each route parser returns a list with one
    record per line whose trimmed content satisfies the parser's
    qualification predicate (prefix test and token count of sections 4.3
    and 4.4): its length is the number of such lines, the records are
    those of the qualifying lines in the order of the text, nothing is
    merged or reordered, and the other lines contribute nothing. *)
Theorem route_parsers_emit_one_record_per_qualifying_line (output : str) :
  (exists routes,
      parse_windows_route output = Ok routes /\
      length routes
      = length (filter windows_qualifies (trimmed_lines output)) /\
      routes
      = map windows_record (filter windows_qualifies (trimmed_lines output)))
  /\
  (exists routes,
      parse_unix_route output = Ok routes /\
      length routes
      = length (filter unix_qualifies (trimmed_lines output)) /\
      routes
      = map unix_record (filter unix_qualifies (trimmed_lines output))).
Proof.
  split; eexists; (split; [|split]).
  - apply parse_windows_route_closed.
  - apply length_map.
  - reflexivity.
  - apply parse_unix_route_closed.
  - apply length_map.
  - reflexivity.
Qed.

(** C2, as stated, fails: the record of the line
    "default  10.0.0.1  UG  0  0  0  wlan0" does not have interface
    "wlan0"; token index 5 of the line is "0" and "wlan0" is token
    index 6. *)
Lemma default_line_interface_is_not_wlan0 :
  parse_unix_route default_line
  <> Ok [[ ("Destination", u "default"); ("Gateway", u "10.0.0.1");
           ("Genmask", u "UG"); ("Flags", u "0");
           ("Interface", u "wlan0") ]]
  /\ nth_error (re_split_ws (strip default_line)) 5 = Some (u "0")
  /\ nth_error (re_split_ws (strip default_line)) 6 = Some (u "wlan0").
Proof.
  split; [|split].
  - vm_compute. discriminate.
  - vm_compute. reflexivity.
  - vm_compute. reflexivity.
Qed.

(** C2, amended. For the single line
    "default  10.0.0.1  UG  0  0  0  wlan0" (7 tokens), parse_unix_route
    returns exactly one record with destination "default", gateway
    "10.0.0.1", genmask "UG", flags "0" and interface "0": the token at
    index 5, index 4 being skipped. *)
Theorem default_line_record :
  parse_unix_route default_line
  = Ok [[ ("Destination", u "default"); ("Gateway", u "10.0.0.1");
          ("Genmask", u "UG"); ("Flags", u "0"); ("Interface", u "0") ]]
  /\ length (re_split_ws (strip default_line)) = 7
  /\ getitem (re_split_ws (strip default_line)) 5 = Ok (u "0").
Proof.
  split; [|split]; vm_compute; reflexivity.
Qed.

(** C3. For the single line "0.0.0.0  0.0.0.0  192.168.1.1  eth0  25",
    parse_windows_route returns exactly one record: token 0 is the
    destination, token 1 the mask, token 2 the gateway, token 3 the
    interface and token 4 the metric, which the routing table shows in
    its Metric/Flags column. *)
Theorem windows_default_route_record :
  parse_windows_route (u "0.0.0.0  0.0.0.0  192.168.1.1  eth0  25")
  = Ok [[ ("Destination", u "0.0.0.0"); ("Netmask", u "0.0.0.0");
          ("Gateway", u "192.168.1.1"); ("Interface", u "eth0");
          ("Metric", u "25") ]]
  /\ route_row [ ("Destination", u "0.0.0.0"); ("Netmask", u "0.0.0.0");
                 ("Gateway", u "192.168.1.1"); ("Interface", u "eth0");
                 ("Metric", u "25") ]
     = [u "0.0.0.0"; u "192.168.1.1"; u "0.0.0.0"; u "eth0"; u "25"].
Proof.
  split; vm_compute; reflexivity.
Qed.

Lemma Forall2_map_r {A B} (P : A -> B -> Prop) (f : A -> B) (xs : list A) :
  (forall x, In x xs -> P x (f x)) -> Forall2 P xs (map f xs).
Proof.
  induction xs as [|x xs IH]; intros HP; simpl; constructor.
  - apply HP. left. reflexivity.
  - apply IH. intros y Hy. apply HP. right. exact Hy.
Qed.

(** C6. In parse_windows_route the test [len(parts) > 4] cannot fail once
    the count check [len(parts) >= 5] has passed, so the empty-string
    default is never used: every emitted record's metric is token
    index 4 of its line. *)
Theorem windows_metric_default_unreachable :
  (forall parts : list str,
      (5 <=? length parts) && negb (4 <? length parts) = false)
  /\
  (forall output,
      exists routes,
        parse_windows_route output = Ok routes /\
        Forall2
          (fun line record =>
             exists token,
               nth_error (re_split_ws line) 4 = Some token /\
               windows_metric (re_split_ws line) = Ok token /\
               dict_get "Metric" record = Some token)
          (filter windows_qualifies (trimmed_lines output)) routes).
Proof.
  split.
  - intros parts. destruct (5 <=? length parts) eqn:Hlen; [|reflexivity].
    rewrite (leb_ltb_pred _ _ Hlen). reflexivity.
  - intros output. eexists. split; [apply parse_windows_route_closed|].
    apply Forall2_map_r. intros line Hin.
    apply filter_In in Hin. destruct Hin as [_ Hq].
    unfold windows_qualifies in Hq. apply andb_true_iff in Hq.
    destruct Hq as [_ Hlen]. apply Nat.leb_le in Hlen.
    exists (nth 4 (re_split_ws line) []). split; [|split].
    + apply nth_error_nth'. lia.
    + apply windows_metric_guarded. exact Hlen.
    + reflexivity.
Qed.

(** C7, as stated, fails: the record of the four-token line
    "default 10.0.0.1 UG 0" has the key "Interface", bound to the empty
    string, and the routing table shows that empty string where it would
    show "N/A" for a missing key. *)
Lemma short_line_has_interface_key :
  length (re_split_ws (strip short_default_line)) = 4
  /\ (exists record,
         parse_unix_route short_default_line = Ok [record] /\
         dict_mem "Interface" record = true /\
         dict_get "Interface" record = Some (u "") /\
         nth_error (route_row record) 3 = Some (u "") /\
         nth_error (route_row record) 3 <> Some (u "N/A")).
Proof.
  split; [vm_compute; reflexivity|].
  eexists. split; [vm_compute; reflexivity|].
  repeat split; try (vm_compute; reflexivity).
  vm_compute. discriminate.
Qed.

(** C7, amended. Every record emitted by parse_unix_route has an
    interface field: it is token index 5 of the source line when the line
    has a 6th token, and the empty string when the line has at most 5
    tokens. *)
Theorem unix_interface_is_sixth_token_or_empty (output : str) :
  exists routes,
    parse_unix_route output = Ok routes /\
    Forall2
      (fun line record =>
         dict_get "Interface" record
         = Some (if 5 <? length (re_split_ws line)
                 then nth 5 (re_split_ws line) [] else u ""))
      (filter unix_qualifies (trimmed_lines output)) routes.
Proof.
  eexists. split; [apply parse_unix_route_closed|].
  apply Forall2_map_r. intros line _.
  change (dict_get "Interface" (unix_record line))
    with (Some (nth 5 (re_split_ws line) ([] : str))).
  destruct (5 <? length (re_split_ws line)) eqn:Hlt.
  - reflexivity.
  - apply Nat.ltb_ge in Hlt. rewrite nth_overflow by exact Hlt. reflexivity.
Qed.

(** C10. Both route parsers return a list for every input text and never
    raise: every index they read is below the token count checked before
    it. The empty text gives the empty list. *)
Theorem route_parsers_never_raise (output : str) :
  (exists routes, parse_windows_route output = Ok routes)
  /\ (exists routes, parse_unix_route output = Ok routes)
  /\ parse_windows_route (u "") = Ok []
  /\ parse_unix_route (u "") = Ok [].
Proof.
  split; [|split; [|split]].
  - eexists. apply parse_windows_route_closed.
  - eexists. apply parse_unix_route_closed.
  - vm_compute. reflexivity.
  - vm_compute. reflexivity.
Qed.

(** ** Keys *)

Lemma str_eqb_eq (a b : str) : str_eqb a b = true <-> a = b.
Proof.
  unfold str_eqb. destruct (list_eq_dec N.eq_dec a b); split; congruence.
Qed.

Lemma str_eqb_neq (a b : str) : a <> b -> str_eqb a b = false.
Proof.
  intros Hne. destruct (str_eqb a b) eqn:Heq; [|reflexivity].
  apply str_eqb_eq in Heq. contradiction.
Qed.

Lemma str_eqb_refl (a : str) : str_eqb a a = true.
Proof. apply str_eqb_eq. reflexivity. Qed.

Lemma dict_get_set {V} (k k' : str) (v : V) (d : dict str V) :
  dict_get k (dict_set k' v d)
  = if str_eqb k k' then Some v else dict_get k d.
Proof.
  induction d as [|[k0 v0] d IH]; simpl; unfold key_eqb, Key_str.
  - reflexivity.
  - destruct (str_eqb k' k0) eqn:Hk'; simpl; unfold key_eqb, Key_str.
    + apply str_eqb_eq in Hk'. subst k0.
      destruct (str_eqb k k'); reflexivity.
    + destruct (str_eqb k k0) eqn:Hk.
      * apply str_eqb_eq in Hk. subst k0.
        rewrite (str_eqb_neq k k'); [reflexivity|].
        intros ->. rewrite str_eqb_refl in Hk'. discriminate.
      * exact IH.
Qed.

(** ** Platform dispatch *)

(** C4. On a platform tag other than Windows, Linux and Darwin,
    get_routing_table returns the dict {"error": "Unsupported operating
    system"} and leaves the state as it was: no shell command is run. *)
Theorem unsupported_platform_runs_no_command (host : Host) (w : World) :
  system (self w) <> u "Windows" ->
  system (self w) <> u "Linux" ->
  system (self w) <> u "Darwin" ->
  get_routing_table host w
  = (Ok (RouteDict [("error", u "Unsupported operating system")]), w)
  /\ invoked (snd (get_routing_table host w)) = invoked w.
Proof.
  intros Hwin Hlinux Hdarwin.
  assert (Hrun : get_routing_table host w
                 = (Ok (RouteDict
                          [("error", u "Unsupported operating system")]), w)).
  { unfold get_routing_table, bind, get_self.
    rewrite (str_eqb_neq _ _ Hwin).
    cbn [existsb]. rewrite (str_eqb_neq _ _ Hlinux), (str_eqb_neq _ _ Hdarwin).
    reflexivity. }
  split; [exact Hrun|]. rewrite Hrun. reflexivity.
Qed.

Lemma unsupported_platform_runs_no_command_witness :
  get_routing_table freebsd_host (start freebsd_host)
  = (Ok (RouteDict [("error", u "Unsupported operating system")]),
     start freebsd_host)
  /\ invoked (snd (get_routing_table freebsd_host (start freebsd_host)))
     = invoked (start freebsd_host).
Proof.
  apply (unsupported_platform_runs_no_command freebsd_host
           (start freebsd_host)); vm_compute; discriminate.
Defined.

(** ** Interface enumeration *)

Lemma for_each_invariant {A S} (body : S -> A -> res S) (P : S -> Prop) :
  (forall s x s', P s -> body s x = Ok s' -> P s') ->
  forall xs s s', P s -> for_each body xs s = Ok s' -> P s'.
Proof.
  intros Hbody xs. induction xs as [|x xs IH]; intros s s' HP Hrun; simpl in Hrun.
  - injection Hrun as <-. exact HP.
  - destruct (body s x) as [s1|e] eqn:Hstep; simpl in Hrun; [|discriminate].
    apply (IH s1 s'); [|exact Hrun]. apply (Hbody s x); assumption.
Qed.

Lemma try_except_of_ok {A} (classes : list exc_class) (body : res A)
  (fallback result : A) :
  try_except_of classes body (Ok fallback) = Ok result ->
  body = Ok result \/ result = fallback.
Proof.
  unfold try_except_of. destruct body as [a|e].
  - intros H. left. exact H.
  - destruct (existsb (exc_class_eqb (exc_type e)) classes); intros H.
    + injection H as <-. right. reflexivity.
    + discriminate.
Qed.

Ltac bind_ok H :=
  repeat match type of H with
         | res_bind ?r _ = Ok _ =>
             let x := fresh "x" in
             destruct r as [x|?]; cbn [res_bind] in H; [|discriminate H]
         end.

Lemma interface_entry_keys (host : Host) (interfaces result : dict str details)
  (name : str) :
  interface_entry host interfaces name = Ok result ->
  result = interfaces
  \/ (has_ipv4 host name /\ exists d, result = dict_set name d interfaces).
Proof.
  unfold interface_entry. intros Hrun.
  apply try_except_of_ok in Hrun. destruct Hrun as [Hrun| ->]; [|left; reflexivity].
  destruct (netifaces_ifaddresses host name) as [addrs|e] eqn:Haddrs;
    cbn [res_bind] in Hrun; [|discriminate].
  destruct (dict_mem AF_INET addrs) eqn:Hmem.
  - right. split; [exists addrs; split; [exact Haddrs | exact Hmem]|].
    bind_ok Hrun. injection Hrun as <-. eexists. reflexivity.
  - left. injection Hrun as <-. reflexivity.
Qed.

Lemma get_interface_details_keys (host : Host) (interfaces : dict str details)
  (name : str) :
  get_interface_details host = Ok interfaces ->
  dict_mem name interfaces = true -> has_ipv4 host name.
Proof.
  unfold get_interface_details. intros Hrun.
  destruct (netifaces_interfaces host) as [names|e]; cbn [res_bind] in Hrun;
    [|discriminate].
  revert name.
  apply (for_each_invariant (interface_entry host)
           (fun m => forall name, dict_mem name m = true -> has_ipv4 host name))
    with (xs := names) (s := []) (s' := interfaces); [| |exact Hrun].
  - intros m name' m' Hinv Hstep name Hmem.
    apply interface_entry_keys in Hstep.
    destruct Hstep as [->|[Hv4 [d ->]]]; [apply Hinv; exact Hmem|].
    unfold dict_mem in Hmem. rewrite dict_get_set in Hmem.
    destruct (str_eqb name name') eqn:Heq.
    + apply str_eqb_eq in Heq. subst name'. exact Hv4.
    + apply Hinv. exact Hmem.
  - intros name Hmem. discriminate.
Qed.

(** C8. Whatever interface enumeration returns, an interface of the
    system's interface list whose address table has no IPv4 entry is not
    a key of the returned map. *)
Theorem interfaces_without_ipv4_are_omitted (host : Host)
  (names : list str) (interfaces : dict str details) (name : str)
  (addrs : ifaddresses_t) :
  netifaces_interfaces host = Ok names ->
  In name names ->
  netifaces_ifaddresses host name = Ok addrs ->
  dict_mem AF_INET addrs = false ->
  get_interface_details host = Ok interfaces ->
  dict_mem name interfaces = false /\ dict_get name interfaces = None.
Proof.
  intros _ _ Haddrs Hnone Hrun.
  assert (Hmem : dict_mem name interfaces = false).
  { destruct (dict_mem name interfaces) eqn:Hmem; [|reflexivity].
    destruct (get_interface_details_keys host interfaces name Hrun Hmem)
      as [addrs' [Haddrs' Hv4]].
    rewrite Haddrs in Haddrs'. injection Haddrs' as <-.
    rewrite Hnone in Hv4. discriminate. }
  split; [exact Hmem|].
  unfold dict_mem in Hmem. destruct (dict_get name interfaces);
    [discriminate | reflexivity].
Qed.

Lemma interfaces_without_ipv4_are_omitted_witness :
  get_interface_details two_interface_host
  = Ok [(u "eth0",
         {| IP := u "192.168.1.10"; Netmask := u "255.255.255.0";
            MAC := Some (u "aa:bb:cc:dd:ee:ff");
            Broadcast := u "192.168.1.255" |})]
  /\ dict_mem (u "tun0")
       [(u "eth0",
         {| IP := u "192.168.1.10"; Netmask := u "255.255.255.0";
            MAC := Some (u "aa:bb:cc:dd:ee:ff");
            Broadcast := u "192.168.1.255" |})] = false
  /\ dict_get (u "tun0")
       [(u "eth0",
         {| IP := u "192.168.1.10"; Netmask := u "255.255.255.0";
            MAC := Some (u "aa:bb:cc:dd:ee:ff");
            Broadcast := u "192.168.1.255" |})] = None.
Proof.
  split; [vm_compute; reflexivity|].
  apply (interfaces_without_ipv4_are_omitted two_interface_host
           [u "eth0"; u "tun0"] _ (u "tun0")
           [ (AF_INET6, [[("addr", u "fe80::1"); ("netmask", u "ffff::")]]) ]).
  - reflexivity.
  - right. left. reflexivity.
  - vm_compute. reflexivity.
  - vm_compute. reflexivity.
  - vm_compute. reflexivity.
Defined.

(** ** Collection steps *)

Lemma get_routing_table_run (host : Host) (w : World) :
  get_routing_table host w
  = (Ok (routing_section host (system (self w))),
     add_invoked_opt (route_command (system (self w))) w).
Proof.
  unfold get_routing_table, routing_section, route_command, route_parser,
    bind, get_self.
  destruct (str_eqb (system (self w)) (u "Windows")).
  - unfold get_windows_routing_table, try_except, bind,
      subprocess_check_output, lift, ret. cbn [add_invoked_opt].
    destruct (check_output host (u "route print")) as [text|e];
      [|reflexivity].
    destruct (parse_windows_route text); reflexivity.
  - destruct (existsb (str_eqb (system (self w))) [u "Linux"; u "Darwin"]);
      [|reflexivity].
    unfold get_unix_routing_table, try_except, bind,
      subprocess_check_output, lift, ret. cbn [add_invoked_opt].
    destruct (check_output host (u "netstat -rn")) as [text|e];
      [|reflexivity].
    destruct (parse_unix_route text); reflexivity.
Qed.

Lemma get_arp_table_run (host : Host) (w : World) :
  get_arp_table host w
  = (Ok (arp_section host (system (self w))),
     add_invoked (arp_command (system (self w))) w).
Proof.
  unfold get_arp_table, arp_section, arp_command, try_except, bind, get_self,
    subprocess_check_output, ret.
  destruct (str_eqb (system (self w)) (u "Windows"));
    match goal with |- context [check_output host ?c] =>
      destruct (check_output host c) end; reflexivity.
Qed.

Lemma get_dns_info_run (host : Host) (w : World) :
  get_dns_info host w
  = (Ok (dns_section host (system (self w))),
     add_invoked (dns_command (system (self w))) w).
Proof.
  unfold get_dns_info, dns_section, dns_command, try_except, bind, get_self,
    subprocess_check_output, ret.
  destruct (str_eqb (system (self w)) (u "Windows"));
    match goal with |- context [check_output host ?c] =>
      destruct (check_output host c) end; reflexivity.
Qed.

Lemma route_parser_total (platform text : str) :
  exists routes, route_parser platform text = Ok routes.
Proof.
  unfold route_parser. destruct (str_eqb platform (u "Windows")); eexists.
  - apply parse_windows_route_closed.
  - apply parse_unix_route_closed.
Qed.

Lemma self_add_invoked_opt (cmd : option str) (w : World) :
  self (add_invoked_opt cmd w) = self w.
Proof. destruct cmd; reflexivity. Qed.

(** The whole collection pass: it stops at the interface step or at the
    gateway call when that raises, and otherwise stores all five
    sections. *)
Lemma collect_all_info_run (host : Host) (w : World) :
  let platform := system (self w) in
  let w1 := set_self (set_routing_table (routing_section host platform))
              (add_invoked_opt (route_command platform) w) in
  collect_all_info host w
  = match get_interface_details host with
    | Raise e => (Raise e, w1)
    | Ok interfaces =>
        let w4 :=
          set_self (set_dns_info (dns_section host platform))
            (add_invoked (dns_command platform)
               (set_self (set_arp_table (arp_section host platform))
                  (add_invoked (arp_command platform)
                     (set_self (set_interface_details interfaces) w1)))) in
        match netifaces_gateways host with
        | Raise e => (Raise e, w4)
        | Ok gateways =>
            (Ok tt,
             set_self (set_gateway_info
                         (match gateways with Some d => d | None => [] end))
               w4)
        end
    end.
Proof.
  cbv zeta. unfold collect_all_info.
  unfold bind at 1. rewrite get_routing_table_run.
  unfold bind at 1. unfold update_self at 1.
  unfold bind at 1. unfold lift at 1.
  destruct (get_interface_details host) as [interfaces|e]; [|reflexivity].
  unfold bind at 1. unfold update_self at 1.
  unfold bind at 1. rewrite get_arp_table_run.
  unfold bind at 1. unfold update_self at 1.
  unfold bind at 1. rewrite get_dns_info_run.
  unfold bind at 1. unfold update_self at 1.
  unfold bind at 1. unfold lift at 1.
  unfold update_self.
  cbn [self set_self add_invoked system set_routing_table
         set_interface_details set_arp_table set_dns_info].
  rewrite !self_add_invoked_opt.
  destruct (netifaces_gateways host) as [gateways|e]; reflexivity.
Qed.

(** ** Display *)

Lemma prints_seq (m k : M unit) (w : World) (o1 o2 : list printed) :
  prints m w o1 ->
  prints k {| self := self w; invoked := invoked w;
              stdout := stdout w ++ o1 |} o2 ->
  prints (m ;;; k) w (o1 ++ o2).
Proof.
  unfold prints, bind. intros -> Hk. rewrite Hk.
  cbn [self invoked stdout]. rewrite app_assoc. reflexivity.
Qed.

Lemma prints_print (p : printed) (w : World) : prints (print p) w [p].
Proof. reflexivity. Qed.

Lemma prints_banner (fill : char) (title : string) (w : World) :
  prints (banner fill title) w (banner_lines fill title).
Proof.
  unfold banner. apply (prints_seq _ _ _ [_] [_; _]); [apply prints_print|].
  apply (prints_seq _ _ _ [_] [_]); apply prints_print.
Qed.

(** After the banner, a section reads the object and prints. *)
Lemma prints_section (fill : char) (title : string)
  (body : NetworkAnalyzer -> M unit) (w : World) (out : list printed) :
  prints (body (self w))
    {| self := self w; invoked := invoked w;
       stdout := stdout w ++ banner_lines fill title |} out ->
  prints (banner fill title ;;; a <~ get_self ;; body a) w
    (banner_lines fill title ++ out).
Proof.
  intros Hbody. apply prints_seq; [apply prints_banner|].
  unfold prints in *. unfold bind, get_self. exact Hbody.
Qed.

Lemma add_rows {A} (row : A -> list str) (items : list A) (t : PrettyTable) :
  (forall item, length (row item) = length (field_names t)) ->
  for_each (fun t item => add_row t (row item)) items t
  = Ok {| field_names := field_names t; align := align t;
          rows := rows t ++ map row items |}.
Proof.
  intros Hlen. revert t Hlen.
  induction items as [|item items IH]; intros t Hlen; simpl.
  - rewrite app_nil_r. destruct t; reflexivity.
  - unfold add_row at 1. rewrite Hlen, Nat.eqb_refl. cbn [res_bind].
    rewrite IH by exact Hlen. cbn [field_names align rows].
    rewrite <- app_assoc. reflexivity.
Qed.

Lemma display_arp_table_prints (w : World) :
  prints display_arp_table w
    (banner_lines 0x2D%N "ARP TABLE" ++ [Text (arp_table (self w))]).
Proof.
  unfold display_arp_table. apply prints_section. apply prints_print.
Qed.

Lemma display_dns_info_prints (w : World) :
  prints display_dns_info w
    (banner_lines 0x2D%N "DNS INFORMATION" ++ [Text (dns_info (self w))]).
Proof.
  unfold display_dns_info. apply prints_section. apply prints_print.
Qed.

(** ** Partial failure *)

(** C5, as stated, fails. On both hosts the route command succeeds and
    the ARP command fails. On the first the address lookup of "eth0"
    raises OSError, which [except (ValueError, KeyError)] lets through:
    collect_all_info raises before the ARP and DNS steps have run, and
    nothing is displayed. On the second the gateway call raises OSError
    after the other four steps, and collect_all_info raises as well. *)
Lemma collection_aborts_on_library_error :
  check_output address_error_host (u "netstat -rn")
  = Ok (u "default 10.0.0.1 UG 0 0 eth0")
  /\ check_output address_error_host (u "arp -n") = Raise arp_failure
  /\ fst (collect_all_info address_error_host (start address_error_host))
     = Raise (Exception OSError (u "[Errno 12] Cannot allocate memory"))
  /\ invoked (snd (collect_all_info address_error_host
                     (start address_error_host)))
     = [u "netstat -rn"]
  /\ arp_table (self (snd (collect_all_info address_error_host
                             (start address_error_host))))
     = u ""
  /\ fst (main address_error_host)
     = Raise (Exception OSError (u "[Errno 12] Cannot allocate memory"))
  /\ stdout (snd (main address_error_host)) = []
  /\ check_output gateway_error_host (u "netstat -rn")
     = Ok (u "default 10.0.0.1 UG 0 0 eth0")
  /\ check_output gateway_error_host (u "arp -n") = Raise arp_failure
  /\ fst (collect_all_info gateway_error_host (start gateway_error_host))
     = Raise (Exception OSError (u "[Errno 12] Cannot allocate memory"))
  /\ fst (main gateway_error_host)
     = Raise (Exception OSError (u "[Errno 12] Cannot allocate memory")).
Proof.
  repeat split; vm_compute; reflexivity.
Qed.

(** * Further properties *)

(** ** Texts of several lines *)

Lemma split_cons (s : str) (sep : char) :
  exists piece pieces, split s sep = piece :: pieces.
Proof.
  destruct s as [|c s]; simpl; [eauto|].
  destruct (c =? sep)%N; [eauto|].
  destruct (split s sep); eauto.
Qed.

Lemma split_app (a b : str) (sep : char) :
  split (a ++ sep :: b) sep = split a sep ++ split b sep.
Proof.
  induction a as [|c a IH]; simpl.
  - rewrite N.eqb_refl. reflexivity.
  - destruct (c =? sep)%N; rewrite IH; [reflexivity|].
    destruct (split_cons a sep) as [piece [pieces ->]]. reflexivity.
Qed.

Lemma trimmed_lines_app (a b : str) :
  trimmed_lines (a ++ 0x0A%N :: b) = trimmed_lines a ++ trimmed_lines b.
Proof. unfold trimmed_lines. rewrite split_app, map_app. reflexivity. Qed.

(** X1. Parsing two texts joined by a newline gives the records of the
    first followed by the records of the second, for both parsers; a
    final newline changes nothing. *)
Theorem route_parsers_distribute_over_newline (a b : str) :
  parse_windows_route (a ++ 0x0A%N :: b)
  = (ra <- parse_windows_route a ;;
     rb <- parse_windows_route b ;; Ok (ra ++ rb))
  /\ parse_unix_route (a ++ 0x0A%N :: b)
     = (ra <- parse_unix_route a ;; rb <- parse_unix_route b ;; Ok (ra ++ rb))
  /\ parse_windows_route (a ++ [0x0A%N]) = parse_windows_route a
  /\ parse_unix_route (a ++ [0x0A%N]) = parse_unix_route a.
Proof.
  rewrite !parse_windows_route_closed, !parse_unix_route_closed.
  cbn [res_bind]. rewrite !trimmed_lines_app, !filter_app, !map_app.
  repeat split; try reflexivity.
  - change (trimmed_lines []) with [strip []].
    change (filter windows_qualifies [strip []]) with (@nil str).
    rewrite app_nil_r. reflexivity.
  - change (trimmed_lines []) with [strip []].
    change (filter unix_qualifies [strip []]) with (@nil str).
    rewrite app_nil_r. reflexivity.
Qed.

(** ** Tokens *)

Lemma re_split_ws_space (c : char) (s : str) :
  Py_UNICODE_ISSPACE c = true ->
  re_split_ws (c :: s)
  = match s with
    | c' :: _ => if Py_UNICODE_ISSPACE c' then re_split_ws s
                 else [] :: re_split_ws s
    | [] => [] :: re_split_ws s
    end.
Proof. intros Hc. simpl. rewrite Hc. reflexivity. Qed.

Lemma re_split_ws_char (c : char) (s : str) :
  Py_UNICODE_ISSPACE c = false ->
  re_split_ws (c :: s)
  = match re_split_ws s with
    | piece :: pieces => (c :: piece) :: pieces
    | [] => [[c]]
    end.
Proof. intros Hc. simpl. rewrite Hc. reflexivity. Qed.

Lemma re_split_ws_cons (s : str) :
  exists token tokens, re_split_ws s = token :: tokens.
Proof.
  induction s as [|c s [token [tokens IH]]]; [simpl; eauto|].
  destruct (Py_UNICODE_ISSPACE c) eqn:Hc.
  - rewrite (re_split_ws_space _ _ Hc). destruct s as [|c' s']; [eauto|].
    destruct (Py_UNICODE_ISSPACE c'); eauto.
  - rewrite (re_split_ws_char _ _ Hc), IH. eauto.
Qed.

Lemma re_split_ws_no_space (s : str) :
  Forall (fun token => no_space token = true) (re_split_ws s).
Proof.
  induction s as [|c s IH]; [repeat constructor|].
  destruct (Py_UNICODE_ISSPACE c) eqn:Hc.
  - rewrite (re_split_ws_space _ _ Hc). destruct s as [|c' s'].
    + repeat constructor.
    + destruct (Py_UNICODE_ISSPACE c'); [exact IH|].
      constructor; [reflexivity | exact IH].
  - rewrite (re_split_ws_char _ _ Hc).
    destruct (re_split_ws s) as [|token tokens]; [repeat constructor|].
    + simpl. rewrite Hc. reflexivity.
    + inversion IH as [|? ? Htoken Htokens]; subst.
      constructor; [|exact Htokens]. simpl. rewrite Hc. exact Htoken.
Qed.

(** An empty token after the first one means the text ends in
    whitespace. *)
Lemma empty_token_in_tail (s : str) :
  In [] (tl (re_split_ws s)) ->
  exists r c, s = r ++ [c] /\ Py_UNICODE_ISSPACE c = true.
Proof.
  induction s as [|c s IH]; [simpl; contradiction|].
  destruct (Py_UNICODE_ISSPACE c) eqn:Hc.
  - rewrite (re_split_ws_space _ _ Hc). destruct s as [|c' s'].
    + intros _. exists [], c. split; [reflexivity | exact Hc].
    + destruct (Py_UNICODE_ISSPACE c') eqn:Hc'.
      * intros Hin. destruct (IH Hin) as [r [c0 [Hs Hc0]]].
        exists (c :: r), c0. rewrite Hs. split; [reflexivity | exact Hc0].
      * intros Hin. cbn [tl] in Hin.
        assert (Htail : In [] (tl (re_split_ws (c' :: s')))).
        { rewrite (re_split_ws_char _ _ Hc') in Hin |- *.
          destruct (re_split_ws s') as [|token tokens]; simpl in Hin |- *.
          - destruct Hin as [Hin|[]]. discriminate.
          - destruct Hin as [Hin|Hin]; [discriminate | exact Hin]. }
        destruct (IH Htail) as [r [c0 [Hs Hc0]]].
        exists (c :: r), c0. rewrite Hs. split; [reflexivity | exact Hc0].
  - rewrite (re_split_ws_char _ _ Hc).
    destruct (re_split_ws_cons s) as [token [tokens Heq]]. rewrite Heq.
    cbn [tl]. intros Hin.
    assert (Htail : In [] (tl (re_split_ws s))) by (rewrite Heq; exact Hin).
    destruct (IH Htail) as [r [c0 [Hs Hc0]]].
    exists (c :: r), c0. rewrite Hs. split; [reflexivity | exact Hc0].
Qed.

(** A text that neither starts nor ends with whitespace splits into
    words. *)
Lemma tokens_are_words (c : char) (s : str) :
  Py_UNICODE_ISSPACE c = false ->
  (forall r c', c :: s = r ++ [c'] -> Py_UNICODE_ISSPACE c' = false) ->
  Forall word (re_split_ws (c :: s)).
Proof.
  intros Hc Hlast. apply Forall_forall. intros token Hin. split.
  - intros ->.
    assert (Htail : In [] (tl (re_split_ws (c :: s)))).
    { rewrite (re_split_ws_char _ _ Hc) in Hin |- *.
      destruct (re_split_ws s) as [|token tokens]; simpl in Hin |- *.
      - destruct Hin as [Hin|[]]. discriminate.
      - destruct Hin as [Hin|Hin]; [discriminate | exact Hin]. }
    destruct (empty_token_in_tail _ Htail) as [r [c' [Hs Hc']]].
    rewrite (Hlast r c' Hs) in Hc'. discriminate.
  - pose proof (re_split_ws_no_space (c :: s)) as Hall.
    rewrite Forall_forall in Hall. apply Hall. exact Hin.
Qed.

(** ** Trimming *)

Lemma lstrip_head (s : str) :
  match lstrip s with
  | [] => True
  | c :: _ => Py_UNICODE_ISSPACE c = false
  end.
Proof.
  induction s as [|c s IH]; simpl; [exact I|].
  destruct (Py_UNICODE_ISSPACE c) eqn:Hc; [exact IH | exact Hc].
Qed.

Lemma lstrip_suffix (s : str) : exists w, s = w ++ lstrip s.
Proof.
  induction s as [|c s [w IH]]; simpl; [exists []; reflexivity|].
  destruct (Py_UNICODE_ISSPACE c).
  - exists (c :: w). simpl. f_equal. exact IH.
  - exists []. reflexivity.
Qed.

Lemma rstrip_prefix (s : str) : exists w, s = rstrip s ++ w.
Proof.
  unfold rstrip. destruct (lstrip_suffix (rev s)) as [w Hw].
  exists (rev w). rewrite <- rev_app_distr, <- Hw, rev_involutive.
  reflexivity.
Qed.

Lemma rstrip_last (s r : str) (c : char) :
  rstrip s = r ++ [c] -> Py_UNICODE_ISSPACE c = false.
Proof.
  unfold rstrip. intros Heq. apply (f_equal (@rev char)) in Heq.
  rewrite rev_involutive, rev_unit in Heq.
  pose proof (lstrip_head (rev s)) as Hhead. rewrite Heq in Hhead.
  exact Hhead.
Qed.

Lemma strip_head (s : str) :
  match strip s with
  | [] => True
  | c :: _ => Py_UNICODE_ISSPACE c = false
  end.
Proof.
  unfold strip. destruct (rstrip_prefix (lstrip s)) as [w Hw].
  pose proof (lstrip_head s) as Hhead.
  destruct (rstrip (lstrip s)) as [|c r]; [exact I|].
  rewrite Hw in Hhead. exact Hhead.
Qed.

(** The tokens of a trimmed line that is not empty are words. *)
Lemma tokens_of_trimmed_line (s : str) :
  strip s <> [] -> Forall word (re_split_ws (strip s)).
Proof.
  intros Hne. pose proof (strip_head s) as Hhead.
  destruct (strip s) as [|c r] eqn:Hstrip; [contradiction|].
  apply tokens_are_words; [exact Hhead|].
  intros r' c' Heq. rewrite <- Hstrip in Heq. unfold strip in Heq.
  apply (rstrip_last _ _ _ Heq).
Qed.

Lemma trimmed_line_is_trimmed (output line : str) :
  In line (trimmed_lines output) -> exists raw, line = strip raw.
Proof.
  unfold trimmed_lines. intros Hin. apply in_map_iff in Hin.
  destruct Hin as [raw [Heq _]]. exists raw. symmetry. exact Heq.
Qed.

Lemma startswith_nonempty (s prefix : str) :
  prefix <> [] -> startswith s prefix = true -> s <> [].
Proof.
  intros Hp Hs ->. destruct prefix; [contradiction | discriminate].
Qed.

Lemma nth_word (tokens : list str) (i : nat) :
  Forall word tokens -> i < length tokens -> word (nth i tokens []).
Proof.
  intros Hall Hlt. rewrite Forall_forall in Hall. apply Hall.
  apply nth_In. exact Hlt.
Qed.

(** ** The fields of a record *)

Lemma windows_qualifying_tokens (output line : str) :
  In line (filter windows_qualifies (trimmed_lines output)) ->
  Forall word (re_split_ws line) /\ 5 <= length (re_split_ws line).
Proof.
  intros Hin. apply filter_In in Hin. destruct Hin as [Hin Hq].
  unfold windows_qualifies in Hq. apply andb_true_iff in Hq.
  destruct Hq as [Hprefix Hlen]. apply Nat.leb_le in Hlen.
  split; [|exact Hlen].
  destruct (trimmed_line_is_trimmed _ _ Hin) as [raw ->].
  apply tokens_of_trimmed_line.
  apply (startswith_nonempty _ (u "0.0.0.0")); [discriminate | exact Hprefix].
Qed.

Lemma unix_qualifying_tokens (output line : str) :
  In line (filter unix_qualifies (trimmed_lines output)) ->
  Forall word (re_split_ws line) /\ 4 <= length (re_split_ws line).
Proof.
  intros Hin. apply filter_In in Hin. destruct Hin as [Hin Hq].
  unfold unix_qualifies, unix_case_a in Hq.
  destruct (trimmed_line_is_trimmed _ _ Hin) as [raw ->].
  assert (Hne : strip raw <> [] /\ 4 <= length (re_split_ws (strip raw))).
  { destruct (startswith (strip raw) (u "default")) eqn:Hdefault;
      [|destruct (startswith (strip raw) (u "0.0.0.0")) eqn:Hzero];
      cbn [orb] in Hq.
    - split; [|apply Nat.leb_le; exact Hq].
      apply (startswith_nonempty _ (u "default"));
        [discriminate | exact Hdefault].
    - split; [|apply Nat.leb_le; exact Hq].
      apply (startswith_nonempty _ (u "0.0.0.0"));
        [discriminate | exact Hzero].
    - apply andb_true_iff in Hq. destruct Hq as [Hmatch Hlen].
      apply Nat.leb_le in Hlen. split; [|lia].
      intros Hempty. rewrite Hempty in Hmatch. discriminate. }
  destruct Hne as [Hne Hlen]. split; [|exact Hlen].
  apply tokens_of_trimmed_line. exact Hne.
Qed.

(** X2. Every record of parse_windows_route has exactly the keys
    Destination, Netmask, Gateway, Interface and Metric, in this order,
    and each of its values is a non-empty string without whitespace. *)
Theorem windows_records_hold_five_words (output : str) :
  exists routes,
    parse_windows_route output = Ok routes /\
    Forall
      (fun record =>
         map fst record
         = ["Destination"; "Netmask"; "Gateway"; "Interface"; "Metric"] /\
         Forall (fun field => word (snd field)) record)
      routes.
Proof.
  eexists. split; [apply parse_windows_route_closed|].
  apply Forall_forall. intros record Hin. apply in_map_iff in Hin.
  destruct Hin as [line [<- Hin]].
  destruct (windows_qualifying_tokens _ _ Hin) as [Hwords Hlen].
  split; [reflexivity|].
  unfold windows_record.
  repeat constructor; cbn [snd]; apply nth_word; (exact Hwords || lia).
Qed.

(** X3. Every record of parse_unix_route has exactly the keys
    Destination, Gateway, Genmask, Flags and Interface, in this order.
    The first four values are non-empty strings without whitespace; the
    interface is the empty string exactly when the line has at most five
    tokens, and a non-empty string without whitespace otherwise. *)
Theorem unix_records_hold_words (output : str) :
  exists routes,
    parse_unix_route output = Ok routes /\
    Forall2
      (fun line record =>
         map fst record
         = ["Destination"; "Gateway"; "Genmask"; "Flags"; "Interface"] /\
         has_word record "Destination" /\ has_word record "Gateway" /\
         has_word record "Genmask" /\ has_word record "Flags" /\
         exists interface,
           dict_get "Interface" record = Some interface /\
           (interface = [] <-> length (re_split_ws line) <= 5) /\
           (interface = [] \/ word interface))
      (filter unix_qualifies (trimmed_lines output)) routes.
Proof.
  eexists. split; [apply parse_unix_route_closed|].
  apply Forall2_map_r. intros line Hin.
  destruct (unix_qualifying_tokens _ _ Hin) as [Hwords Hlen].
  split; [reflexivity|].
  unfold has_word, unix_record.
  repeat (split; [eexists; split; [reflexivity | apply nth_word;
                                   (exact Hwords || lia)]|]).
  eexists. split; [reflexivity|].
  destruct (Nat.le_gt_cases (length (re_split_ws line)) 5) as [Hshort|Hlong].
  - rewrite nth_overflow by exact Hshort.
    split; [split; [intros _; exact Hshort | reflexivity]|].
    left. reflexivity.
  - assert (Hword : word (nth 5 (re_split_ws line) []))
      by (apply nth_word; [exact Hwords | lia]).
    split; [|right; exact Hword].
    split; [|lia]. intros Hempty. destruct Hword as [Hne _]. contradiction.
Qed.

(** ** The destination of a record *)

Lemma startswith_app (s prefix : str) :
  startswith s prefix = true <-> exists rest, s = prefix ++ rest.
Proof.
  revert s. induction prefix as [|p prefix IH]; intros s.
  - split; [intros _; exists s; reflexivity|].
    intros _. destruct s; reflexivity.
  - destruct s as [|c s]; simpl;
      [split; [discriminate | intros [rest H]; discriminate]|].
    rewrite andb_true_iff, N.eqb_eq, IH. split.
    + intros [-> [rest ->]]. exists rest. reflexivity.
    + intros [rest H]. injection H as -> ->. split; [reflexivity|].
      exists rest. reflexivity.
Qed.

(** The first token of a text that begins with a word prefix begins with
    that prefix. *)
Lemma first_token_app (prefix rest : str) :
  no_space prefix = true ->
  first_token (prefix ++ rest) = prefix ++ first_token rest.
Proof.
  unfold first_token. induction prefix as [|c prefix IH]; intros Hword.
  - reflexivity.
  - simpl in Hword. apply andb_true_iff in Hword.
    destruct Hword as [Hc Hword]. apply negb_true_iff in Hc.
    cbn [app]. rewrite (re_split_ws_char _ _ Hc).
    destruct (re_split_ws_cons (prefix ++ rest)) as [token [tokens Heq]].
    specialize (IH Hword). rewrite Heq in IH |- *. cbn [nth] in IH |- *.
    rewrite IH. reflexivity.
Qed.

Lemma first_token_startswith (line prefix : str) :
  no_space prefix = true ->
  startswith line prefix = true ->
  startswith (first_token line) prefix = true.
Proof.
  intros Hword Hstarts. apply startswith_app in Hstarts.
  destruct Hstarts as [rest ->]. rewrite (first_token_app _ _ Hword).
  apply startswith_app. eexists. reflexivity.
Qed.

Lemma space_cases (c : char) :
  Py_UNICODE_ISSPACE c = true ->
  In c [0x09; 0x0A; 0x0B; 0x0C; 0x0D; 0x1C; 0x1D; 0x1E; 0x1F; 0x20; 0x85;
        0xA0; 0x1680; 0x2000; 0x2001; 0x2002; 0x2003; 0x2004; 0x2005;
        0x2006; 0x2007; 0x2008; 0x2009; 0x200A; 0x2028; 0x2029; 0x202F;
        0x205F; 0x3000]%N.
Proof.
  unfold Py_UNICODE_ISSPACE.
  rewrite !orb_true_iff, !andb_true_iff, !N.leb_le, !N.eqb_eq.
  cbn [In]. lia.
Qed.

Lemma decimal_is_not_space (c : char) :
  Py_UNICODE_ISDECIMAL c = true -> Py_UNICODE_ISSPACE c = false.
Proof.
  intros Hdecimal. destruct (Py_UNICODE_ISSPACE c) eqn:Hspace; [|reflexivity].
  apply space_cases in Hspace. cbn [In] in Hspace.
  repeat (destruct Hspace as [<-|Hspace];
          [vm_compute in Hdecimal; discriminate Hdecimal|]).
  contradiction.
Qed.

Lemma digit_run_no_space (run : str) :
  digit_run run -> no_space run = true.
Proof.
  intros [_ Hrun]. unfold no_space. apply forallb_forall. intros c Hin.
  rewrite forallb_forall in Hrun. rewrite (decimal_is_not_space c);
    [reflexivity | apply Hrun; exact Hin].
Qed.

Lemma no_space_app (a b : str) :
  no_space a = true -> no_space b = true -> no_space (a ++ b) = true.
Proof.
  unfold no_space. intros Ha Hb. rewrite forallb_app, Ha, Hb. reflexivity.
Qed.

Lemma no_space_dot (s : str) :
  no_space s = true -> no_space (0x2E%N :: s) = true.
Proof. intros Hs. simpl. exact Hs. Qed.

(** The first token of a line that begins with a dotted quad begins
    with that dotted quad. *)
Lemma first_token_dotted_quad (line : str) :
  re_match_dotted_quad line = true ->
  re_match_dotted_quad (first_token line) = true.
Proof.
  rewrite !re_match_dotted_quad_spec.
  intros [a [b [c [d [rest [Ha [Hb [Hc [Hd ->]]]]]]]]].
  exists a, b, c, d, (first_token rest). repeat (split; [assumption|]).
  replace (a ++ 0x2E%N :: b ++ 0x2E%N :: c ++ 0x2E%N :: d ++ rest)
    with ((a ++ 0x2E%N :: b ++ 0x2E%N :: c ++ 0x2E%N :: d) ++ rest)
    by (repeat (rewrite <- app_assoc; cbn [app]); reflexivity).
  rewrite first_token_app.
  - repeat (rewrite <- app_assoc; cbn [app]). reflexivity.
  - repeat (apply no_space_app || apply no_space_dot);
      apply digit_run_no_space; assumption.
Qed.

(** X4. parse_windows_route keeps default routes only: the destination
    of every record begins with 0.0.0.0. *)
Theorem windows_destinations_begin_with_zero_route (output : str) :
  exists routes,
    parse_windows_route output = Ok routes /\
    Forall
      (fun record =>
         exists destination,
           dict_get "Destination" record = Some destination /\
           startswith destination (u "0.0.0.0") = true)
      routes.
Proof.
  eexists. split; [apply parse_windows_route_closed|].
  apply Forall_forall. intros record Hin. apply in_map_iff in Hin.
  destruct Hin as [line [<- Hin]].
  apply filter_In in Hin. destruct Hin as [_ Hq].
  unfold windows_qualifies in Hq. apply andb_true_iff in Hq.
  destruct Hq as [Hprefix _].
  exists (first_token line). split; [reflexivity|].
  apply first_token_startswith; [reflexivity | exact Hprefix].
Qed.

(** X5. The destination of every record of parse_unix_route begins with
    "default", with "0.0.0.0" or with a dotted quad of decimal digits. *)
Theorem unix_destinations_are_default_or_dotted_quad (output : str) :
  exists routes,
    parse_unix_route output = Ok routes /\
    Forall
      (fun record =>
         exists destination,
           dict_get "Destination" record = Some destination /\
           (startswith destination (u "default") = true \/
            startswith destination (u "0.0.0.0") = true \/
            re_match_dotted_quad destination = true))
      routes.
Proof.
  eexists. split; [apply parse_unix_route_closed|].
  apply Forall_forall. intros record Hin. apply in_map_iff in Hin.
  destruct Hin as [line [<- Hin]].
  apply filter_In in Hin. destruct Hin as [_ Hq].
  unfold unix_qualifies, unix_case_a in Hq.
  exists (first_token line). split; [reflexivity|].
  destruct (startswith line (u "default")) eqn:Hdefault;
    [|destruct (startswith line (u "0.0.0.0")) eqn:Hzero]; cbn [orb] in Hq.
  - left. apply first_token_startswith; [reflexivity | exact Hdefault].
  - right. left. apply first_token_startswith; [reflexivity | exact Hzero].
  - right. right. apply andb_true_iff in Hq. destruct Hq as [Hmatch _].
    apply first_token_dotted_quad. exact Hmatch.
Qed.

(** ** The interface map *)

Lemma dict_getitem_ok {K V} `{Key K} (k : K) (d : dict K V) (v : V) :
  dict_getitem k d = Ok v <-> dict_get k d = Some v.
Proof.
  unfold dict_getitem. destruct (dict_get k d); split; congruence.
Qed.

Lemma getitem_first {A} (l : list A) (x : A) :
  getitem l 0 = Ok x <-> exists others, l = x :: others.
Proof.
  unfold getitem. destruct l as [|y l]; simpl; split.
  - discriminate.
  - intros [others H]. discriminate.
  - intros H. injection H as ->. exists l. reflexivity.
  - intros [others H]. injection H as -> _. reflexivity.
Qed.

Lemma dict_mem_get {K V} `{Key K} (k : K) (d : dict K V) :
  dict_mem k d = false <-> dict_get k d = None.
Proof.
  unfold dict_mem. destruct (dict_get k d); split; congruence.
Qed.

(** One turn of the loop either leaves the map alone or stores the entry
    of the interface's address table. *)
Lemma interface_entry_sound (host : Host) (interfaces result : dict str details)
  (name : str) :
  interface_entry host interfaces name = Ok result ->
  result = interfaces
  \/ (exists addrs d,
         netifaces_ifaddresses host name = Ok addrs /\
         entry_of addrs d /\ result = dict_set name d interfaces).
Proof.
  unfold interface_entry. intros Hrun.
  apply try_except_of_ok in Hrun.
  destruct Hrun as [Hrun| ->]; [|left; reflexivity].
  destruct (netifaces_ifaddresses host name) as [addrs|e] eqn:Haddrs;
    cbn [res_bind] in Hrun; [|discriminate].
  destruct (dict_mem AF_INET addrs) eqn:Hmem;
    [|left; injection Hrun as <-; reflexivity].
  right. exists addrs.
  destruct (dict_getitem AF_INET addrs) as [inet|] eqn:Hinet;
    cbn [res_bind] in Hrun; [|discriminate].
  destruct (getitem inet 0) as [inet0|] eqn:Hinet0;
    cbn [res_bind] in Hrun; [|discriminate].
  destruct (dict_getitem "addr" inet0) as [ip|] eqn:Hip;
    cbn [res_bind] in Hrun; [|discriminate].
  destruct (dict_getitem "netmask" inet0) as [netmask|] eqn:Hnetmask;
    cbn [res_bind] in Hrun; [|discriminate].
  apply dict_getitem_ok in Hinet, Hip, Hnetmask.
  apply getitem_first in Hinet0. destruct Hinet0 as [others ->].
  destruct (dict_mem AF_LINK addrs) eqn:Hlink.
  - destruct (dict_getitem AF_LINK addrs) as [link|] eqn:Hlinks;
      cbn [res_bind] in Hrun; [|discriminate].
    destruct (getitem link 0) as [link0|] eqn:Hlink0;
      cbn [res_bind] in Hrun; [|discriminate].
    destruct (dict_getitem "addr" link0) as [mac|] eqn:Hmac;
      cbn [res_bind] in Hrun; [|discriminate].
    apply dict_getitem_ok in Hlinks, Hmac.
    apply getitem_first in Hlink0. destruct Hlink0 as [more ->].
    injection Hrun as <-. eexists. split; [reflexivity|].
    split; [|reflexivity].
    exists inet0, others. cbn [IP Netmask MAC Broadcast].
    repeat (split; [assumption || reflexivity|]).
    rewrite Hlinks. exists link0, more, mac. repeat split. exact Hmac.
  - cbn [res_bind] in Hrun. injection Hrun as <-.
    eexists. split; [reflexivity|]. split; [|reflexivity].
    exists inet0, others. cbn [IP Netmask MAC Broadcast].
    repeat (split; [assumption || reflexivity|]).
    apply dict_mem_get in Hlink. rewrite Hlink. reflexivity.
Qed.

Lemma entry_of_unique (addrs : ifaddresses_t) (d d' : details) :
  entry_of addrs d -> entry_of addrs d' -> d = d'.
Proof.
  intros [inet0 [others [Hinet [Hip [Hnm [Hbc Hmac]]]]]]
         [inet0' [others' [Hinet' [Hip' [Hnm' [Hbc' Hmac']]]]]].
  rewrite Hinet in Hinet'. injection Hinet' as <- <-.
  destruct d as [ip nm mac bc], d' as [ip' nm' mac' bc'].
  cbn [IP Netmask MAC Broadcast] in *.
  rewrite Hip in Hip'. injection Hip' as <-.
  rewrite Hnm in Hnm'. injection Hnm' as <-.
  subst bc bc'. f_equal.
  destruct (dict_get AF_LINK addrs) as [links|]; [|congruence].
  destruct Hmac as [l0 [more [m [-> [Hm ->]]]]].
  destruct Hmac' as [l0' [more' [m' [Heq [Hm' ->]]]]].
  injection Heq as <- <-. congruence.
Qed.

(** An interface with an entry is stored by its turn of the loop. *)
Lemma interface_entry_complete (host : Host) (interfaces : dict str details)
  (name : str) (addrs : ifaddresses_t) (d : details) :
  netifaces_ifaddresses host name = Ok addrs ->
  entry_of addrs d ->
  interface_entry host interfaces name = Ok (dict_set name d interfaces).
Proof.
  intros Haddrs [inet0 [others [Hinet [Hip [Hnm [Hbc Hmac]]]]]].
  unfold interface_entry. rewrite Haddrs. cbn [res_bind].
  unfold dict_mem, dict_getitem. rewrite Hinet.
  cbn [res_bind getitem nth_error].
  rewrite Hip, Hnm. cbn [res_bind].
  destruct d as [ip nm mac bc]. cbn [IP Netmask MAC Broadcast] in *.
  destruct (dict_get AF_LINK addrs) as [links|].
  - destruct Hmac as [l0 [more [m [-> [Hm ->]]]]].
    cbn [res_bind getitem nth_error]. rewrite Hm. cbn [res_bind].
    subst bc. reflexivity.
  - cbn [res_bind]. subst mac bc. reflexivity.
Qed.

Lemma interface_entry_passes (host : Host) (interfaces : dict str details)
  (name : str) :
  passed_over host name ->
  interface_entry host interfaces name = Ok interfaces.
Proof.
  unfold interface_entry.
  intros [[e [Hraise Hclass]]|[addrs [Haddrs Hmem]]].
  - rewrite Hraise. cbn [res_bind try_except_of].
    destruct Hclass as [-> | ->]; reflexivity.
  - rewrite Haddrs. cbn [res_bind]. rewrite Hmem. reflexivity.
Qed.

Lemma for_each_invariant_in {A S} (body : S -> A -> res S) (P : S -> Prop)
  (xs : list A) :
  (forall s x s', In x xs -> P s -> body s x = Ok s' -> P s') ->
  forall s s', P s -> for_each body xs s = Ok s' -> P s'.
Proof.
  induction xs as [|x xs IH]; intros Hbody s s' HP Hrun; simpl in Hrun.
  - injection Hrun as <-. exact HP.
  - destruct (body s x) as [s1|e] eqn:Hstep; simpl in Hrun; [|discriminate].
    apply (IH (fun s x' s' Hin => Hbody s x' s' (or_intror Hin)) s1 s');
      [|exact Hrun].
    apply (Hbody s x s1); [left; reflexivity | exact HP | exact Hstep].
Qed.

(** What one turn of the loop establishes and every turn keeps holds at
    the end. *)
Lemma for_each_establishes {A S} (body : S -> A -> res S) (Q : S -> Prop)
  (x : A) :
  (forall s s', body s x = Ok s' -> Q s') ->
  (forall s y s', Q s -> body s y = Ok s' -> Q s') ->
  forall xs s s', In x xs -> for_each body xs s = Ok s' -> Q s'.
Proof.
  intros Hset Hkeep xs. induction xs as [|x0 xs IH]; intros s s' Hin Hrun.
  - contradiction.
  - simpl in Hrun.
    destruct (body s x0) as [s1|e] eqn:Hstep; simpl in Hrun; [|discriminate].
    destruct Hin as [->|Hin].
    + apply (for_each_invariant body Q Hkeep xs s1 s'); [|exact Hrun].
      apply (Hset s s1). exact Hstep.
    + apply (IH s1 s' Hin Hrun).
Qed.

Lemma for_each_app {A S} (body : S -> A -> res S) (xs ys : list A) (s : S) :
  for_each body (xs ++ ys) s
  = (s' <- for_each body xs s ;; for_each body ys s').
Proof.
  revert s. induction xs as [|x xs IH]; intros s; simpl; [reflexivity|].
  destruct (body s x); simpl; [apply IH | reflexivity].
Qed.

Lemma for_each_ext {A S} (body body' : S -> A -> res S) (xs : list A) (s : S) :
  (forall s x, body s x = body' s x) ->
  for_each body xs s = for_each body' xs s.
Proof.
  intros Hext. revert s. induction xs as [|x xs IH]; intros s; simpl;
    [reflexivity|].
  rewrite Hext. destruct (body' s x); simpl; [apply IH | reflexivity].
Qed.

Lemma dict_mem_in {V} (k : str) (d : dict str V) :
  dict_mem k d = true <-> In k (map fst d).
Proof.
  unfold dict_mem. induction d as [|[k0 v0] d IH]; simpl.
  - split; [discriminate | contradiction].
  - unfold key_eqb, Key_str. destruct (str_eqb k k0) eqn:Hk.
    + apply str_eqb_eq in Hk. subst k0. split; [left|]; reflexivity.
    + rewrite IH. split; [right; assumption|].
      intros [->|Hin]; [|exact Hin].
      rewrite str_eqb_refl in Hk. discriminate.
Qed.

Lemma dict_set_keys {V} (k : str) (v : V) (d : dict str V) :
  map fst (dict_set k v d)
  = if dict_mem k d then map fst d else map fst d ++ [k].
Proof.
  unfold dict_mem. induction d as [|[k0 v0] d IH]; [reflexivity|].
  cbn [dict_set dict_get]. change (key_eqb k k0) with (str_eqb k k0).
  destruct (str_eqb k k0); [reflexivity|].
  cbn [map fst]. rewrite IH. destruct (dict_get k d); reflexivity.
Qed.

(** X6. Every entry of the map get_interface_details returns belongs to
    a listed interface and holds what that interface's address table
    says: the address and netmask of its first IPv4 address, the
    broadcast address or "N/A", and the first link-layer address or
    None. *)
Theorem interface_entries_are_read_from_the_address_table (host : Host)
  (names : list str) (interfaces : dict str details) (name : str)
  (d : details) :
  netifaces_interfaces host = Ok names ->
  get_interface_details host = Ok interfaces ->
  dict_get name interfaces = Some d ->
  In name names /\
  exists addrs,
    netifaces_ifaddresses host name = Ok addrs /\ entry_of addrs d.
Proof.
  unfold get_interface_details. intros Hnames Hrun.
  rewrite Hnames in Hrun. cbn [res_bind] in Hrun. revert name d.
  apply (for_each_invariant_in (interface_entry host)
           (fun m => forall name d,
                dict_get name m = Some d ->
                In name names /\
                exists addrs,
                  netifaces_ifaddresses host name = Ok addrs /\
                  entry_of addrs d) names)
    with (s := []) (s' := interfaces); [| |exact Hrun].
  - intros m x m' Hin Hinv Hstep name d Hget.
    apply interface_entry_sound in Hstep.
    destruct Hstep as [->|[addrs [d' [Haddrs [Hentry ->]]]]];
      [apply Hinv; exact Hget|].
    rewrite dict_get_set in Hget. destruct (str_eqb name x) eqn:Heq.
    + apply str_eqb_eq in Heq. subst x. injection Hget as <-.
      split; [exact Hin|]. exists addrs. split; assumption.
    + apply Hinv. exact Hget.
  - intros name d Hget. discriminate.
Qed.

Lemma interface_entries_are_read_from_the_address_table_witness :
  In (u "lo") [u "lo"; u "gone0"; u "tun0"; u "lo"] /\
  exists addrs,
    netifaces_ifaddresses lookup_host (u "lo") = Ok addrs /\
    entry_of addrs lo_details.
Proof.
  apply (interface_entries_are_read_from_the_address_table lookup_host
           [u "lo"; u "gone0"; u "tun0"; u "lo"] [(u "lo", lo_details)]);
    vm_compute; reflexivity.
Defined.

(** X7. A listed interface whose address table has a first IPv4 address
    with 'addr' and 'netmask', and a first link-layer address with 'addr'
    when it has the key AF_LINK, is a key of the returned map, bound to
    the entry of that table. *)
Theorem listed_interfaces_with_ipv4_are_stored (host : Host)
  (names : list str) (interfaces : dict str details) (name : str)
  (addrs : ifaddresses_t) (d : details) :
  netifaces_interfaces host = Ok names ->
  In name names ->
  netifaces_ifaddresses host name = Ok addrs ->
  entry_of addrs d ->
  get_interface_details host = Ok interfaces ->
  dict_get name interfaces = Some d.
Proof.
  unfold get_interface_details. intros Hnames Hin Haddrs Hentry Hrun.
  rewrite Hnames in Hrun. cbn [res_bind] in Hrun.
  apply (for_each_establishes (interface_entry host)
           (fun m => dict_get name m = Some d) name)
    with (xs := names) (s := []) (s' := interfaces);
    [| |exact Hin|exact Hrun].
  - intros m m' Hstep.
    rewrite (interface_entry_complete host m name addrs d Haddrs Hentry)
      in Hstep.
    injection Hstep as <-. rewrite dict_get_set, str_eqb_refl. reflexivity.
  - intros m y m' Hget Hstep. apply interface_entry_sound in Hstep.
    destruct Hstep as [->|[addrs' [d' [Haddrs' [Hentry' ->]]]]];
      [exact Hget|].
    rewrite dict_get_set. destruct (str_eqb name y) eqn:Heq; [|exact Hget].
    apply str_eqb_eq in Heq. subst y.
    rewrite Haddrs in Haddrs'. injection Haddrs' as <-.
    rewrite (entry_of_unique addrs d d' Hentry Hentry'). reflexivity.
Qed.

Lemma listed_interfaces_with_ipv4_are_stored_witness :
  dict_get (u "lo") [(u "lo", lo_details)] = Some lo_details.
Proof.
  apply (listed_interfaces_with_ipv4_are_stored lookup_host
           [u "lo"; u "gone0"; u "tun0"; u "lo"] [(u "lo", lo_details)]
           (u "lo")
           [ (AF_INET, [[("addr", u "127.0.0.1");
                         ("netmask", u "255.0.0.0")]]) ]
           lo_details).
  - reflexivity.
  - left. reflexivity.
  - vm_compute. reflexivity.
  - exists [("addr", u "127.0.0.1"); ("netmask", u "255.0.0.0")], [].
    repeat split.
  - vm_compute. reflexivity.
Defined.

(** X8. The keys of the returned map are listed interfaces and no key
    occurs twice, however often the list names an interface; the map has
    at most as many entries as the list has names. *)
Theorem interface_map_keys_are_distinct (host : Host) (names : list str)
  (interfaces : dict str details) :
  netifaces_interfaces host = Ok names ->
  get_interface_details host = Ok interfaces ->
  NoDup (map fst interfaces) /\
  incl (map fst interfaces) names /\
  length interfaces <= length names.
Proof.
  unfold get_interface_details. intros Hnames Hrun.
  rewrite Hnames in Hrun. cbn [res_bind] in Hrun.
  assert (Hkeys : NoDup (map fst interfaces)
                  /\ incl (map fst interfaces) names).
  { apply (for_each_invariant_in (interface_entry host)
             (fun m => NoDup (map fst m) /\ incl (map fst m) names) names)
      with (s := []) (s' := interfaces); [| |exact Hrun].
    - intros m x m' Hin [Hnodup Hincl] Hstep.
      apply interface_entry_keys in Hstep.
      destruct Hstep as [->|[_ [d ->]]]; [split; assumption|].
      rewrite dict_set_keys. destruct (dict_mem x m) eqn:Hmem;
        [split; assumption|].
      split.
      + apply NoDup_app; [exact Hnodup | repeat constructor; intros [] |].
        intros k Hk [<-|[]]. apply dict_mem_in in Hk.
        rewrite Hk in Hmem. discriminate.
      + apply incl_app; [exact Hincl|]. intros k [<-|[]]. exact Hin.
    - split; [constructor | intros k []]. }
  destruct Hkeys as [Hnodup Hincl]. repeat split; try assumption.
  rewrite <- (length_map fst). apply NoDup_incl_length; assumption.
Qed.

Lemma interface_map_keys_are_distinct_witness :
  NoDup (map fst [(u "lo", lo_details)]) /\
  incl (map fst [(u "lo", lo_details)])
    [u "lo"; u "gone0"; u "tun0"; u "lo"] /\
  length [(u "lo", lo_details)] <= length [u "lo"; u "gone0"; u "tun0"; u "lo"].
Proof.
  apply (interface_map_keys_are_distinct lookup_host);
    vm_compute; reflexivity.
Defined.

Lemma interface_entry_ext (host host' : Host) (interfaces : dict str details)
  (name : str) :
  (forall name, netifaces_ifaddresses host' name
                = netifaces_ifaddresses host name) ->
  interface_entry host' interfaces name = interface_entry host interfaces name.
Proof. intros Hsame. unfold interface_entry. rewrite Hsame. reflexivity. Qed.

(** X9. An interface whose lookup raises ValueError or KeyError, or
    whose address table has no IPv4 entry, is passed over: the returned
    map is the one returned when the list does not name it. *)
Theorem passed_over_interface_changes_nothing (host host' : Host)
  (before after : list str) (name : str) :
  netifaces_interfaces host = Ok (before ++ name :: after) ->
  netifaces_interfaces host' = Ok (before ++ after) ->
  (forall name, netifaces_ifaddresses host' name
                = netifaces_ifaddresses host name) ->
  passed_over host name ->
  get_interface_details host = get_interface_details host'.
Proof.
  intros Hnames Hnames' Hsame Hpassed. unfold get_interface_details.
  rewrite Hnames, Hnames'. cbn [res_bind].
  rewrite (for_each_ext (interface_entry host') (interface_entry host))
    by (intros m x; apply interface_entry_ext; exact Hsame).
  rewrite !for_each_app.
  destruct (for_each (interface_entry host) before []) as [m|e];
    cbn [res_bind for_each]; [|reflexivity].
  rewrite (interface_entry_passes host m name Hpassed). reflexivity.
Qed.

Lemma passed_over_interface_changes_nothing_witness :
  get_interface_details lookup_host = get_interface_details lookup_host_short.
Proof.
  apply (passed_over_interface_changes_nothing lookup_host lookup_host_short
           [u "lo"] [u "tun0"; u "lo"] (u "gone0")).
  - reflexivity.
  - reflexivity.
  - reflexivity.
  - left. eexists. split; [vm_compute; reflexivity|]. left. reflexivity.
Defined.

(** ** The steps of a collection pass *)

(** X10. get_routing_table never raises. On an unsupported platform it
    runs nothing; otherwise it runs the platform's route command once.
    It returns the parsed routes when the command succeeds and the dict
    {"error": message} when the command raises. *)
Theorem get_routing_table_returns_routes_or_error (host : Host) (w : World) :
  exists r,
    get_routing_table host w
    = (Ok r, add_invoked_opt (route_command (system (self w))) w) /\
    match route_command (system (self w)) with
    | None => r = RouteDict [("error", u "Unsupported operating system")]
    | Some cmd =>
        match check_output host cmd with
        | Ok text =>
            exists routes,
              route_parser (system (self w)) text = Ok routes /\
              r = RouteList routes
        | Raise e => r = RouteDict [("error", exc_str e)]
        end
    end.
Proof.
  eexists. split; [apply get_routing_table_run|].
  unfold routing_section.
  destruct (route_command (system (self w))) as [cmd|]; [|reflexivity].
  destruct (check_output host cmd) as [text|e]; [|reflexivity].
  destruct (route_parser_total (system (self w)) text) as [routes Hroutes].
  exists routes. rewrite Hroutes. split; reflexivity.
Qed.

(** X11. get_arp_table and get_dns_info never raise and run one command
    each: "arp -a" and "ipconfig /all" on Windows, "arp -n" and
    "cat /etc/resolv.conf" elsewhere. They return the command's output,
    or "Error getting ARP table: " and "Error getting DNS info: "
    followed by the error message when the command raises. *)
Theorem arp_and_dns_steps_return_text (host : Host) (w : World) :
  let windows := str_eqb (system (self w)) (u "Windows") in
  let arp := if windows then u "arp -a" else u "arp -n" in
  let dns := if windows then u "ipconfig /all"
             else u "cat /etc/resolv.conf" in
  get_arp_table host w
  = (Ok (match check_output host arp with
         | Ok text => text
         | Raise e => u "Error getting ARP table: " ++ exc_str e
         end),
     add_invoked arp w)
  /\ get_dns_info host w
     = (Ok (match check_output host dns with
            | Ok text => text
            | Raise e => u "Error getting DNS info: " ++ exc_str e
            end),
        add_invoked dns w).
Proof.
  cbv zeta. split.
  - apply get_arp_table_run.
  - apply get_dns_info_run.
Qed.

Lemma invoked_add_invoked_opt (cmd : option str) (w : World) :
  invoked (add_invoked_opt cmd w)
  = invoked w ++ match cmd with Some c => [c] | None => [] end.
Proof. destruct cmd; simpl; [reflexivity | rewrite app_nil_r; reflexivity]. Qed.

Lemma stdout_add_invoked_opt (cmd : option str) (w : World) :
  stdout (add_invoked_opt cmd w) = stdout w.
Proof. destruct cmd; reflexivity. Qed.

(** X12. Whatever happens, collect_all_info prints nothing, keeps the
    platform tag, and runs a prefix of the pass's commands: the route
    command (none on an unsupported platform), the ARP command, the DNS
    command. When it returns it has run all of them, at most three. *)
Theorem collect_all_info_runs_its_commands_in_order (host : Host)
  (w : World) :
  let result := collect_all_info host w in
  let commands := pass_commands (system (self w)) in
  stdout (snd result) = stdout w
  /\ system (self (snd result)) = system (self w)
  /\ (exists k, invoked (snd result) = invoked w ++ firstn k commands)
  /\ (fst result = Ok tt -> invoked (snd result) = invoked w ++ commands)
  /\ length commands <= 3.
Proof.
  cbv zeta. rewrite collect_all_info_run. cbv zeta. unfold pass_commands.
  destruct (get_interface_details host) as [interfaces|e];
    [destruct (netifaces_gateways host) as [gateways|e]|];
    cbn [fst snd self invoked stdout set_self add_invoked system
           set_routing_table set_interface_details set_arp_table
           set_dns_info set_gateway_info];
    rewrite ?self_add_invoked_opt, ?invoked_add_invoked_opt,
      ?stdout_add_invoked_opt;
    destruct (route_command (system (self w))) as [cmd|]; cbn [app length].
  all: repeat split; try reflexivity; try discriminate; try lia.
  all: try (intros _; rewrite <- !app_assoc; reflexivity).
  - exists 3. rewrite <- !app_assoc. reflexivity.
  - exists 2. rewrite <- !app_assoc. reflexivity.
  - exists 3. rewrite <- !app_assoc. reflexivity.
  - exists 2. rewrite <- !app_assoc. reflexivity.
  - exists 1. reflexivity.
  - exists 0. rewrite !app_nil_r. reflexivity.
Qed.

(** X13. A pass that returns has replaced every section: the object
    holds the platform tag and the five sections of this pass, and
    nothing of the snapshot before it. *)
Theorem returned_pass_replaces_every_section (host : Host) (w w' : World) :
  collect_all_info host w = (Ok tt, w') ->
  exists interfaces gateways,
    get_interface_details host = Ok interfaces /\
    netifaces_gateways host = Ok gateways /\
    self w' = snapshot host (system (self w)) interfaces gateways.
Proof.
  rewrite collect_all_info_run. cbv zeta.
  destruct (get_interface_details host) as [interfaces|e]; [|discriminate].
  destruct (netifaces_gateways host) as [gateways|e]; [|discriminate].
  intros Hrun. injection Hrun as <-. exists interfaces, gateways.
  repeat split.
  unfold snapshot.
  cbn [self set_self add_invoked system set_routing_table
         set_interface_details set_arp_table set_dns_info set_gateway_info
         interface_details routing_table arp_table dns_info gateway_info].
  rewrite !self_add_invoked_opt. reflexivity.
Qed.

Lemma returned_pass_replaces_every_section_witness :
  exists interfaces gateways,
    get_interface_details arp_failure_host = Ok interfaces /\
    netifaces_gateways arp_failure_host = Ok gateways /\
    self (snd (collect_all_info arp_failure_host (start arp_failure_host)))
    = snapshot arp_failure_host (system (self (start arp_failure_host)))
        interfaces gateways.
Proof.
  apply (returned_pass_replaces_every_section arp_failure_host
           (start arp_failure_host)).
  vm_compute. reflexivity.
Defined.

(** X14. A pass that raises leaves a mixed snapshot. The routing table
    is already the new one and the gateway map is still the old one;
    when the interface step raised, the interface map and the ARP and DNS
    texts are the old ones too, and when the gateway call raised they
    are the new ones. *)
Theorem failed_pass_leaves_a_mixed_snapshot (host : Host) (w : World)
  (e : exn) :
  fst (collect_all_info host w) = Raise e ->
  let a := self (snd (collect_all_info host w)) in
  routing_table a = routing_section host (system (self w))
  /\ gateway_info a = gateway_info (self w)
  /\ ((get_interface_details host = Raise e /\
       interface_details a = interface_details (self w) /\
       arp_table a = arp_table (self w) /\
       dns_info a = dns_info (self w))
      \/ (netifaces_gateways host = Raise e /\
          get_interface_details host = Ok (interface_details a) /\
          arp_table a = arp_section host (system (self w)) /\
          dns_info a = dns_section host (system (self w)))).
Proof.
  cbv zeta. rewrite collect_all_info_run. cbv zeta.
  destruct (get_interface_details host) as [interfaces|e1];
    [destruct (netifaces_gateways host) as [gateways|e2]|];
    cbn [fst snd self set_self add_invoked system set_routing_table
           set_interface_details set_arp_table set_dns_info set_gateway_info
           interface_details routing_table arp_table dns_info gateway_info];
    rewrite ?self_add_invoked_opt; intros Hraise.
  - discriminate.
  - injection Hraise as ->. split; [reflexivity|]. split; [reflexivity|].
    right. repeat split.
  - injection Hraise as ->. split; [reflexivity|]. split; [reflexivity|].
    left. repeat split.
Qed.

Lemma failed_pass_leaves_a_mixed_snapshot_witness :
  let a := self (snd (collect_all_info address_error_host
                        (start address_error_host))) in
  routing_table a
  = routing_section address_error_host
      (system (self (start address_error_host)))
  /\ gateway_info a = gateway_info (self (start address_error_host))
  /\ ((get_interface_details address_error_host
       = Raise (Exception OSError (u "[Errno 12] Cannot allocate memory")) /\
       interface_details a
       = interface_details (self (start address_error_host)) /\
       arp_table a = arp_table (self (start address_error_host)) /\
       dns_info a = dns_info (self (start address_error_host)))
      \/ (netifaces_gateways address_error_host
          = Raise (Exception OSError (u "[Errno 12] Cannot allocate memory")) /\
          get_interface_details address_error_host
          = Ok (interface_details a) /\
          arp_table a
          = arp_section address_error_host
              (system (self (start address_error_host))) /\
          dns_info a
          = dns_section address_error_host
              (system (self (start address_error_host))))).
Proof.
  apply (failed_pass_leaves_a_mixed_snapshot address_error_host
           (start address_error_host)
           (Exception OSError (u "[Errno 12] Cannot allocate memory"))).
  vm_compute. reflexivity.
Defined.

(** ** The display pass in closed form *)

Lemma gateway_rows_closed (items : list (family * list str))
  (t : PrettyTable) :
  length (field_names t) = 3 ->
  for_each gateway_row items t
  = Ok {| field_names := field_names t; align := align t;
          rows := rows t
                  ++ map gateway_cells
                       (filter (fun item => 2 <=? length (snd item)) items)
       |}.
Proof.
  revert t. induction items as [|[fam tuple] items IH]; intros t Hlen.
  - simpl. rewrite app_nil_r. destruct t; reflexivity.
  - cbn [for_each filter]. unfold gateway_row at 1. cbn [fst snd].
    destruct (2 <=? length tuple) eqn:Htuple.
    + apply Nat.leb_le in Htuple.
      rewrite (getitem_nth tuple 0 ([] : str)),
        (getitem_nth tuple 1 ([] : str)) by lia.
      cbn [res_bind]. unfold add_row. cbn [length]. rewrite Hlen.
      cbn [Nat.eqb res_bind]. rewrite IH by exact Hlen.
      cbn [field_names align rows map]. rewrite <- app_assoc. reflexivity.
    + cbn [res_bind]. apply IH. exact Hlen.
Qed.

Lemma display_routing_table_closed (w : World) (p : printed) :
  routing_output (routing_table (self w)) = Some p ->
  prints display_routing_table w (banner_lines 0x2D%N "ROUTING TABLE" ++ [p]).
Proof.
  intros Hout. unfold display_routing_table. apply prints_section.
  destruct (routing_table (self w)) as [routes|d]; cbn [routing_output] in Hout.
  - injection Hout as <-. unfold prints, bind, lift.
    rewrite (add_rows route_row routes) by reflexivity. reflexivity.
  - unfold dict_mem, dict_getitem.
    destruct (dict_get "error" d) as [message|].
    + injection Hout as <-. reflexivity.
    + destruct d; [|discriminate]. injection Hout as <-. reflexivity.
Qed.

Lemma display_routing_table_raises (w : World) :
  routing_output (routing_table (self w)) = None ->
  display_routing_table w
  = (Raise (Exception AttributeError
              (u "'str' object has no attribute 'get'")),
     {| self := self w; invoked := invoked w;
        stdout := stdout w ++ banner_lines 0x2D%N "ROUTING TABLE" |}).
Proof.
  intros Hout. unfold display_routing_table.
  pose proof (prints_banner 0x2D%N "ROUTING TABLE" w) as Hbanner.
  unfold prints in Hbanner. unfold bind at 1. rewrite Hbanner.
  unfold bind, get_self. cbn [self].
  destruct (routing_table (self w)) as [routes|d];
    cbn [routing_output] in Hout; [discriminate|].
  unfold dict_mem. destruct (dict_get "error" d); [discriminate|].
  destruct d; [discriminate|]. reflexivity.
Qed.

Lemma display_interfaces_closed (w : World) :
  prints display_interfaces w
    (banner_lines 0x2D%N "NETWORK INTERFACES"
     ++ [interfaces_output (interface_details (self w))]).
Proof.
  unfold display_interfaces. apply prints_section.
  destruct (interface_details (self w)) as [|item items].
  - apply prints_print.
  - unfold prints, bind, lift.
    rewrite (add_rows interface_row (item :: items)) by reflexivity.
    reflexivity.
Qed.

Lemma display_gateways_closed (w : World) :
  prints display_gateways w
    (banner_lines 0x2D%N "DEFAULT GATEWAYS"
     ++ [gateways_output (gateway_info (self w))]).
Proof.
  unfold display_gateways. apply prints_section.
  destruct (gateway_info (self w)) as [|item items].
  - apply prints_print.
  - unfold prints, bind, lift.
    rewrite (gateway_rows_closed (item :: items)) by reflexivity.
    reflexivity.
Qed.

(** A section that prints from the object prints the same from any
    state holding that object. *)
Lemma prints_at (m : M unit) (w : World) (a : NetworkAnalyzer)
  (out : NetworkAnalyzer -> list printed) :
  (forall w, prints m w (out (self w))) -> self w = a -> prints m w (out a).
Proof. intros Hm <-. apply Hm. Qed.

Lemma display_all_info_closed (w : World) (p : printed) :
  routing_output (routing_table (self w)) = Some p ->
  prints display_all_info w (display_output (self w) p).
Proof.
  intros Hout. unfold display_all_info, display_output.
  apply prints_seq; [apply prints_banner|].
  apply prints_seq; [apply display_routing_table_closed; exact Hout|].
  apply prints_seq;
    [apply (prints_at display_interfaces _ (self w)
              (fun a => banner_lines 0x2D%N "NETWORK INTERFACES"
                        ++ [interfaces_output (interface_details a)])
              display_interfaces_closed); reflexivity|].
  apply prints_seq;
    [apply (prints_at display_gateways _ (self w)
              (fun a => banner_lines 0x2D%N "DEFAULT GATEWAYS"
                        ++ [gateways_output (gateway_info a)])
              display_gateways_closed); reflexivity|].
  apply prints_seq;
    [apply (prints_at display_arp_table _ (self w)
              (fun a => banner_lines 0x2D%N "ARP TABLE"
                        ++ [Text (arp_table a)])
              display_arp_table_prints); reflexivity|].
  apply (prints_at display_dns_info _ (self w)
           (fun a => banner_lines 0x2D%N "DNS INFORMATION"
                     ++ [Text (dns_info a)])
           display_dns_info_prints); reflexivity.
Qed.

(** X15. For an object whose routing table is a list of routes, a dict
    with the key "error" or an empty dict, display_all_info returns,
    changes neither the object nor the command log, and prints in this
    order the title banner and the five sections: the route table or the
    error line, the interface table, the gateway table, the ARP text and
    the DNS text, each after its banner; an empty interface or gateway
    map prints a one-line notice in place of its table. *)
Theorem display_all_info_prints_five_sections (w : World) (p : printed) :
  routing_output (routing_table (self w)) = Some p ->
  display_all_info w
  = (Ok tt,
     {| self := self w; invoked := invoked w;
        stdout := stdout w ++ display_output (self w) p |}).
Proof. apply display_all_info_closed. Qed.

Lemma display_all_info_prints_five_sections_witness :
  display_all_info (start freebsd_host)
  = (Ok tt,
     {| self := self (start freebsd_host);
        invoked := invoked (start freebsd_host);
        stdout := stdout (start freebsd_host)
                  ++ display_output (self (start freebsd_host))
                       (table_of routing_fields []) |}).
Proof.
  apply (display_all_info_prints_five_sections (start freebsd_host)).
  reflexivity.
Defined.

(** X16. For an object whose routing table is a dict that is not empty
    and has no key "error", display_all_info raises AttributeError after
    the title banner and the banner of the routing section: the loop
    runs over the keys of the dict, which are strings. *)
Theorem display_all_info_raises_on_a_dict_without_error (w : World) :
  routing_output (routing_table (self w)) = None ->
  display_all_info w
  = (Raise (Exception AttributeError
              (u "'str' object has no attribute 'get'")),
     {| self := self w; invoked := invoked w;
        stdout := stdout w
                  ++ banner_lines 0x3D%N "NETWORK INFORMATION TOOL"
                  ++ banner_lines 0x2D%N "ROUTING TABLE" |}).
Proof.
  intros Hout. unfold display_all_info.
  pose proof (prints_banner 0x3D%N "NETWORK INFORMATION TOOL" w) as Hbanner.
  unfold prints in Hbanner. unfold bind at 1. rewrite Hbanner.
  unfold bind at 1. rewrite display_routing_table_raises by exact Hout.
  cbn [self invoked stdout]. rewrite <- app_assoc. reflexivity.
Qed.

Lemma display_all_info_raises_on_a_dict_without_error_witness :
  display_all_info
    {| self := set_routing_table (RouteDict [("note", u "none")])
                 (init freebsd_host);
       invoked := []; stdout := [] |}
  = (Raise (Exception AttributeError
              (u "'str' object has no attribute 'get'")),
     {| self := set_routing_table (RouteDict [("note", u "none")])
                  (init freebsd_host);
        invoked := [];
        stdout := []
                  ++ banner_lines 0x3D%N "NETWORK INFORMATION TOOL"
                  ++ banner_lines 0x2D%N "ROUTING TABLE" |}).
Proof.
  apply (display_all_info_raises_on_a_dict_without_error
           {| self := set_routing_table (RouteDict [("note", u "none")])
                        (init freebsd_host);
              invoked := []; stdout := [] |}).
  reflexivity.
Defined.

(** ** The script *)

Lemma routing_section_prints (host : Host) (platform : str) :
  exists p, routing_output (routing_section host platform) = Some p.
Proof.
  unfold routing_section.
  destruct (route_command platform) as [cmd|]; [|eexists; reflexivity].
  destruct (check_output host cmd) as [text|e]; [|eexists; reflexivity].
  destruct (route_parser platform text); eexists; reflexivity.
Qed.

Lemma collect_all_info_routing (host : Host) (w : World) :
  routing_table (self (snd (collect_all_info host w)))
  = routing_section host (system (self w)).
Proof.
  rewrite collect_all_info_run. cbv zeta.
  destruct (get_interface_details host) as [interfaces|e];
    [destruct (netifaces_gateways host) as [gateways|e]|]; reflexivity.
Qed.

Lemma collect_all_info_stdout (host : Host) (w : World) :
  stdout (snd (collect_all_info host w)) = stdout w.
Proof.
  rewrite collect_all_info_run. cbv zeta.
  destruct (get_interface_details host) as [interfaces|e];
    [destruct (netifaces_gateways host) as [gateways|e]|];
    cbn [snd stdout set_self add_invoked]; apply stdout_add_invoked_opt.
Qed.

(** X17. The script body raises exactly when the collection pass raises,
    and then nothing has been printed. Otherwise the display pass
    returns: it prints the title banner and the five sections of the
    collected snapshot and changes neither the snapshot nor the command
    log. *)
Theorem main_displays_what_was_collected (host : Host) :
  let collected := collect_all_info host (start host) in
  match fst collected with
  | Raise e =>
      main host = (Raise e, snd collected) /\
      stdout (snd collected) = []
  | Ok _ =>
      exists p,
        routing_output (routing_table (self (snd collected))) = Some p /\
        main host
        = (Ok tt,
           {| self := self (snd collected);
              invoked := invoked (snd collected);
              stdout := display_output (self (snd collected)) p |})
  end.
Proof.
  cbv zeta. unfold main, bind.
  pose proof (collect_all_info_routing host (start host)) as Hrouting.
  pose proof (collect_all_info_stdout host (start host)) as Hstdout.
  destruct (collect_all_info host (start host)) as [[[]|e] w'];
    cbn [fst snd] in *.
  - destruct (routing_section_prints host (system (self (start host))))
      as [p Hp].
    exists p. rewrite Hrouting. split; [exact Hp|].
    rewrite (display_all_info_closed w' p) by (rewrite Hrouting; exact Hp).
    rewrite Hstdout. reflexivity.
  - split; [reflexivity | exact Hstdout].
Qed.

Lemma collect_all_info_returns (host : Host) (w : World)
  (interfaces : dict str details) (gateways : gateways_t) :
  get_interface_details host = Ok interfaces ->
  netifaces_gateways host = Ok gateways ->
  collect_all_info host w
  = (Ok tt,
     {| self := snapshot host (system (self w)) interfaces gateways;
        invoked := invoked w ++ pass_commands (system (self w));
        stdout := stdout w |}).
Proof.
  intros Hifaces Hgateways. rewrite collect_all_info_run. cbv zeta.
  rewrite Hifaces, Hgateways. unfold set_self, snapshot, pass_commands.
  cbn [self invoked stdout add_invoked system set_routing_table
         set_interface_details set_arp_table set_dns_info set_gateway_info
         interface_details routing_table arp_table dns_info gateway_info].
  rewrite !self_add_invoked_opt, invoked_add_invoked_opt,
    stdout_add_invoked_opt, <- !app_assoc.
  reflexivity.
Qed.

Lemma main_returns (host : Host) (interfaces : dict str details)
  (gateways : gateways_t) (p : printed) :
  get_interface_details host = Ok interfaces ->
  netifaces_gateways host = Ok gateways ->
  routing_output (routing_section host (platform_system host)) = Some p ->
  main host
  = (Ok tt,
     {| self := snapshot host (platform_system host) interfaces gateways;
        invoked := pass_commands (platform_system host);
        stdout := display_output
                    (snapshot host (platform_system host) interfaces gateways)
                    p |}).
Proof.
  intros Hifaces Hgateways Hp. unfold main, bind.
  rewrite (collect_all_info_returns host (start host) interfaces gateways
             Hifaces Hgateways).
  rewrite (display_all_info_closed _ p) by exact Hp. reflexivity.
Qed.

(** X18. On a platform other than Windows, Linux and Darwin, when the
    interface step and the gateway call return, the script runs "arp -n"
    and "cat /etc/resolv.conf" and no route command, and prints the line
    "Error: Unsupported operating system" where the route table would
    be, followed by the other four sections. *)
Theorem unsupported_platform_shows_the_error_line (host : Host)
  (interfaces : dict str details) (gateways : gateways_t) :
  route_command (platform_system host) = None ->
  get_interface_details host = Ok interfaces ->
  netifaces_gateways host = Ok gateways ->
  main host
  = (Ok tt,
     {| self := snapshot host (platform_system host) interfaces gateways;
        invoked := [u "arp -n"; u "cat /etc/resolv.conf"];
        stdout := display_output
                    (snapshot host (platform_system host) interfaces gateways)
                    (Text ([0x0A%N]
                           ++ u "Error: Unsupported operating system")) |}).
Proof.
  intros Hnone Hifaces Hgateways.
  rewrite (main_returns host interfaces gateways
             (Text ([0x0A%N] ++ u "Error: Unsupported operating system"))
             Hifaces Hgateways)
    by (unfold routing_section; rewrite Hnone; reflexivity).
  unfold pass_commands, arp_command, dns_command. rewrite Hnone.
  unfold route_command in Hnone.
  destruct (str_eqb (platform_system host) (u "Windows"));
    [discriminate | reflexivity].
Qed.

Lemma unsupported_platform_shows_the_error_line_witness :
  main freebsd_host
  = (Ok tt,
     {| self := snapshot freebsd_host (platform_system freebsd_host)
                  [] (Some []);
        invoked := [u "arp -n"; u "cat /etc/resolv.conf"];
        stdout := display_output
                    (snapshot freebsd_host (platform_system freebsd_host)
                       [] (Some []))
                    (Text ([0x0A%N]
                           ++ u "Error: Unsupported operating system")) |}).
Proof.
  apply (unsupported_platform_shows_the_error_line freebsd_host [] (Some []));
    reflexivity.
Defined.

Lemma route_rows (platform : str) (lines : list str) :
  map route_row
    (map (if str_eqb platform (u "Windows") then windows_record
          else unix_record) lines)
  = map (route_columns platform) lines.
Proof.
  rewrite map_map. apply map_ext. intros line. unfold route_columns.
  destruct (str_eqb platform (u "Windows")); reflexivity.
Qed.

(** X19. On a supported platform, when the route command succeeds and
    the interface step and the gateway call return, the route table the
    script prints has one row per qualifying line of the command's
    output, in order. Its five cells are tokens 0, 2, 1, 3 and 4 of the
    line on Windows, and tokens 0, 1, 2, 5 and 3 elsewhere, the fourth
    cell being empty when the line has no token 5. *)
Theorem printed_route_rows_follow_the_command_output (host : Host)
  (cmd text : str) (interfaces : dict str details) (gateways : gateways_t) :
  route_command (platform_system host) = Some cmd ->
  check_output host cmd = Ok text ->
  get_interface_details host = Ok interfaces ->
  netifaces_gateways host = Ok gateways ->
  main host
  = (Ok tt,
     {| self := snapshot host (platform_system host) interfaces gateways;
        invoked := [cmd; arp_command (platform_system host);
                    dns_command (platform_system host)];
        stdout := display_output
                    (snapshot host (platform_system host) interfaces gateways)
                    (table_of routing_fields
                       (map (route_columns (platform_system host))
                          (filter (route_qualifies (platform_system host))
                             (trimmed_lines text)))) |}).
Proof.
  intros Hcmd Htext Hifaces Hgateways.
  rewrite (main_returns host interfaces gateways
             (table_of routing_fields
                (map (route_columns (platform_system host))
                   (filter (route_qualifies (platform_system host))
                      (trimmed_lines text))))
             Hifaces Hgateways).
  - unfold pass_commands. rewrite Hcmd. reflexivity.
  - unfold routing_section. rewrite Hcmd, Htext.
    unfold route_parser, route_qualifies.
    rewrite <- route_rows.
    destruct (str_eqb (platform_system host) (u "Windows")).
    + rewrite parse_windows_route_closed. reflexivity.
    + rewrite parse_unix_route_closed. reflexivity.
Qed.

Lemma printed_route_rows_follow_the_command_output_witness :
  main windows_host
  = (Ok tt,
     {| self := snapshot windows_host (platform_system windows_host) [] None;
        invoked := [u "route print";
                    arp_command (platform_system windows_host);
                    dns_command (platform_system windows_host)];
        stdout := display_output
                    (snapshot windows_host (platform_system windows_host)
                       [] None)
                    (table_of routing_fields
                       (map (route_columns (platform_system windows_host))
                          (filter
                             (route_qualifies (platform_system windows_host))
                             (trimmed_lines
                                (u "  0.0.0.0  0.0.0.0  192.168.1.1  192.168.1.10  25")))))
     |}).
Proof.
  apply (printed_route_rows_follow_the_command_output windows_host
           (u "route print")
           (u "  0.0.0.0  0.0.0.0  192.168.1.1  192.168.1.10  25") [] None);
    reflexivity.
Defined.

(** ** The dependency check *)

(** X20. check_dependencies returns True exactly when both netifaces
    and prettytable import, and then prints nothing. Otherwise it returns
    False after printing "Missing dependencies:" and one line per missing
    module, netifaces first. It never raises and changes neither the
    object nor the command log. *)
Theorem check_dependencies_reports_missing_modules (site : Installation)
  (w : World) :
  check_dependencies site w
  = (Ok (has_netifaces site && has_prettytable site),
     {| self := self w; invoked := invoked w;
        stdout := stdout w ++ missing_report site |})
  /\ (missing_report site = []
      <-> has_netifaces site && has_prettytable site = true)
  /\ length (missing_report site)
     = (if has_netifaces site && has_prettytable site then 0 else 1)
       + (if has_netifaces site then 0 else 1)
       + (if has_prettytable site then 0 else 1).
Proof.
  unfold check_dependencies, missing_report.
  destruct (has_netifaces site), (has_prettytable site); cbn [andb app].
  - split; [|split; [split; reflexivity | reflexivity]].
    unfold ret. rewrite app_nil_r. destruct w; reflexivity.
  - split; [|split; [split; discriminate | reflexivity]].
    unfold bind, print, ret, add_stdout. cbn [for_in self invoked stdout].
    unfold bind, print, ret, add_stdout. cbn [self invoked stdout].
    rewrite <- !app_assoc. reflexivity.
  - split; [|split; [split; discriminate | reflexivity]].
    unfold bind, print, ret, add_stdout. cbn [for_in self invoked stdout].
    unfold bind, print, ret, add_stdout. cbn [self invoked stdout].
    rewrite <- !app_assoc. reflexivity.
  - split; [|split; [split; discriminate | reflexivity]].
    unfold bind, print, ret, add_stdout. cbn [for_in self invoked stdout].
    unfold bind, print, ret, add_stdout. cbn [self invoked stdout].
    rewrite <- !app_assoc. reflexivity.
Qed.

(** X21. Run as a script, the file never reaches exit(1) and never
    prints the report of missing modules: when a module is missing, the
    import at the top of the file fails first, netifaces before
    prettytable; when both import, the check passes without output and
    the script runs the collection and display passes. *)
Theorem script_never_exits_with_status_one (site : Installation)
  (host : Host) :
  (forall code w, script site host <> SystemExit code w)
  /\ (has_netifaces site = false ->
      script site host = ImportFailed (u "netifaces"))
  /\ (has_netifaces site = true -> has_prettytable site = false ->
      script site host = ImportFailed (u "prettytable"))
  /\ (has_netifaces site = true -> has_prettytable site = true ->
      script site host = Ran (fst (main host)) (snd (main host))).
Proof.
  unfold script, check_dependencies.
  destruct (has_netifaces site), (has_prettytable site); cbn [negb].
  - fold (main host). unfold ret. unfold main.
    destruct ((collect_all_info host;;; display_all_info) (start host))
      as [result w'].
    repeat split; intros; try discriminate; reflexivity.
  - repeat split; intros; try discriminate; reflexivity.
  - repeat split; intros; try discriminate; reflexivity.
  - repeat split; intros; try discriminate; reflexivity.
Qed.

(** ** Whitespace around a text *)

Lemma strip_cons_space (c : char) (s : str) :
  Py_UNICODE_ISSPACE c = true -> strip (c :: s) = strip s.
Proof. intros Hc. unfold strip. simpl. rewrite Hc. reflexivity. Qed.

Lemma lstrip_app (a b : str) :
  lstrip (a ++ b)
  = match lstrip a with
    | [] => lstrip b
    | _ :: _ => lstrip a ++ b
    end.
Proof.
  induction a as [|c a IH]; simpl; [destruct (lstrip b); reflexivity|].
  destruct (Py_UNICODE_ISSPACE c); [exact IH | reflexivity].
Qed.

Lemma rstrip_snoc_space (c : char) (s : str) :
  Py_UNICODE_ISSPACE c = true -> rstrip (s ++ [c]) = rstrip s.
Proof.
  intros Hc. unfold rstrip. rewrite rev_unit. simpl. rewrite Hc. reflexivity.
Qed.

Lemma strip_snoc_space (c : char) (s : str) :
  Py_UNICODE_ISSPACE c = true -> strip (s ++ [c]) = strip s.
Proof.
  intros Hc. unfold strip. rewrite lstrip_app.
  destruct (lstrip s) as [|c' s'] eqn:Hs.
  - simpl. rewrite Hc. reflexivity.
  - apply rstrip_snoc_space. exact Hc.
Qed.

Lemma split_snoc (s : str) (c sep : char) :
  (c =? sep)%N = false ->
  split (s ++ [c]) sep
  = removelast (split s sep) ++ [last (split s sep) [] ++ [c]].
Proof.
  intros Hc. induction s as [|c0 s IH]; simpl.
  - rewrite Hc. reflexivity.
  - destruct (c0 =? sep)%N.
    + rewrite IH. destruct (split_cons s sep) as [piece [pieces Heq]].
      rewrite Heq. reflexivity.
    + rewrite IH. destruct (split_cons s sep) as [piece [pieces Heq]].
      rewrite Heq. destruct pieces as [|piece' pieces]; reflexivity.
Qed.

(** A whitespace character before or after a text changes the trimmed
    lines by at most one blank line. *)
Lemma trimmed_lines_cons_space (c : char) (s : str) :
  Py_UNICODE_ISSPACE c = true ->
  trimmed_lines (c :: s) = trimmed_lines s
  \/ trimmed_lines (c :: s) = strip [] :: trimmed_lines s.
Proof.
  intros Hc. unfold trimmed_lines. simpl.
  destruct (c =? 0x0A)%N; [right; reflexivity|].
  left. destruct (split_cons s 0x0A%N) as [piece [pieces Heq]].
  rewrite Heq. cbn [map]. rewrite (strip_cons_space _ _ Hc). reflexivity.
Qed.

Lemma trimmed_lines_snoc_space (c : char) (s : str) :
  Py_UNICODE_ISSPACE c = true ->
  trimmed_lines (s ++ [c]) = trimmed_lines s
  \/ trimmed_lines (s ++ [c]) = trimmed_lines s ++ [strip []].
Proof.
  intros Hc. unfold trimmed_lines.
  destruct (c =? 0x0A)%N eqn:Hnl.
  - right. apply N.eqb_eq in Hnl. subst c.
    rewrite split_app, map_app. reflexivity.
  - left. rewrite (split_snoc _ _ _ Hnl), map_app. cbn [map].
    rewrite (strip_snoc_space _ _ Hc).
    destruct (split_cons s 0x0A%N) as [piece [pieces Heq]].
    rewrite Heq.
    rewrite (app_removelast_last [] (l := piece :: pieces)) at 3
      by discriminate.
    rewrite map_app. reflexivity.
Qed.

Lemma filter_around_space (q : str -> bool) (c : char) (s : str) :
  q (strip []) = false ->
  Py_UNICODE_ISSPACE c = true ->
  filter q (trimmed_lines (c :: s)) = filter q (trimmed_lines s)
  /\ filter q (trimmed_lines (s ++ [c])) = filter q (trimmed_lines s).
Proof.
  intros Hblank Hc. split.
  - destruct (trimmed_lines_cons_space c s Hc) as [-> | ->]; [reflexivity|].
    cbn [filter]. rewrite Hblank. reflexivity.
  - destruct (trimmed_lines_snoc_space c s Hc) as [-> | ->]; [reflexivity|].
    rewrite filter_app. cbn [filter]. rewrite Hblank, app_nil_r. reflexivity.
Qed.

Lemma filter_inside_space (q : str -> bool) (before after text : str) :
  q (strip []) = false ->
  all_space before = true ->
  all_space after = true ->
  filter q (trimmed_lines (before ++ text ++ after))
  = filter q (trimmed_lines text).
Proof.
  intros Hblank Hbefore Hafter.
  induction before as [|c before IH].
  - clear Hbefore. cbn [app].
    induction after as [|c after IH] using rev_ind.
    + rewrite app_nil_r. reflexivity.
    + unfold all_space in Hafter. rewrite forallb_app in Hafter.
      apply andb_true_iff in Hafter. destruct Hafter as [Hafter Hc].
      cbn [forallb] in Hc. rewrite andb_true_r in Hc.
      rewrite app_assoc.
      rewrite (proj2 (filter_around_space q c (text ++ after) Hblank Hc)).
      apply IH. exact Hafter.
  - unfold all_space in Hbefore. cbn [forallb] in Hbefore.
    apply andb_true_iff in Hbefore. destruct Hbefore as [Hc Hbefore].
    cbn [app].
    rewrite (proj1 (filter_around_space q c _ Hblank Hc)).
    apply IH. exact Hbefore.
Qed.

(** X22. Whitespace before and after a text, line breaks included, does
    not change what either parser returns. With X1 this holds line by
    line: indentation, trailing blanks, carriage returns and blank lines
    are ignored. *)
Theorem route_parsers_ignore_surrounding_whitespace
  (before after text : str) :
  all_space before = true ->
  all_space after = true ->
  parse_windows_route (before ++ text ++ after) = parse_windows_route text
  /\ parse_unix_route (before ++ text ++ after) = parse_unix_route text.
Proof.
  intros Hbefore Hafter.
  rewrite !parse_windows_route_closed, !parse_unix_route_closed.
  rewrite (filter_inside_space windows_qualifies before after text)
    by (reflexivity || assumption).
  rewrite (filter_inside_space unix_qualifies before after text)
    by (reflexivity || assumption).
  split; reflexivity.
Qed.

Lemma route_parsers_ignore_surrounding_whitespace_witness :
  parse_windows_route
    ([0x0A%N; 0x20%N; 0x09%N] ++ u "0.0.0.0 0.0.0.0 10.0.0.1 10.0.0.7 25"
     ++ [0x20%N; 0x0D%N; 0x0A%N])
  = parse_windows_route (u "0.0.0.0 0.0.0.0 10.0.0.1 10.0.0.7 25")
  /\ parse_unix_route
       ([0x0A%N; 0x20%N; 0x09%N] ++ u "0.0.0.0 0.0.0.0 10.0.0.1 10.0.0.7 25"
        ++ [0x20%N; 0x0D%N; 0x0A%N])
     = parse_unix_route (u "0.0.0.0 0.0.0.0 10.0.0.1 10.0.0.7 25").
Proof.
  apply (route_parsers_ignore_surrounding_whitespace
           [0x0A%N; 0x20%N; 0x09%N] [0x20%N; 0x0D%N; 0x0A%N]);
    reflexivity.
Defined.

(** ** Partial failure, in full *)

(** C5, amended. On every host and in every state, an exception of the
    route, ARP or DNS command never leaves its own step: each of the
    three steps returns. If moreover the route command succeeds and the
    ARP command fails, and the interface enumeration step and the
    gateway call return, then collect_all_info completes all five steps:
    the snapshot holds the parsed routing table, the text
    "Error getting ARP table: " followed by the error message, the
    interface map, the DNS section and the gateway map, and the route,
    ARP and DNS commands have run in this order. display_all_info then
    returns and prints exactly the title banner and the five sections in
    order, each after its banner: the route table with one row per
    route, the interface section, the gateway section, the ARP error
    text and the DNS section. *)
Theorem collection_contains_command_failures :
  (forall (host : Host) (w : World),
      (exists r,
          get_routing_table host w
          = (Ok r, add_invoked_opt (route_command (system (self w))) w))
      /\ (exists text,
             get_arp_table host w
             = (Ok text, add_invoked (arp_command (system (self w))) w))
      /\ (exists text,
             get_dns_info host w
             = (Ok text, add_invoked (dns_command (system (self w))) w)))
  /\
  (forall (host : Host) (w : World) (cmd text : str) (e : exn)
          (interfaces : dict str details) (gateways : gateways_t),
      route_command (system (self w)) = Some cmd ->
      check_output host cmd = Ok text ->
      check_output host (arp_command (system (self w))) = Raise e ->
      get_interface_details host = Ok interfaces ->
      netifaces_gateways host = Ok gateways ->
      exists routes,
        route_parser (system (self w)) text = Ok routes /\
        let a :=
          {| system := system (self w);
             interface_details := interfaces;
             routing_table := RouteList routes;
             arp_table := u "Error getting ARP table: " ++ exc_str e;
             dns_info := dns_section host (system (self w));
             gateway_info :=
               match gateways with Some d => d | None => [] end |} in
        let commands :=
          invoked w ++ [cmd; arp_command (system (self w));
                        dns_command (system (self w))] in
        collect_all_info host w
        = (Ok tt, {| self := a; invoked := commands; stdout := stdout w |})
        /\ display_all_info
             {| self := a; invoked := commands; stdout := stdout w |}
           = (Ok tt,
              {| self := a; invoked := commands;
                 stdout := stdout w
                           ++ display_output a
                                (table_of routing_fields
                                   (map route_row routes)) |})).
Proof.
  split.
  - intros host w. split; [|split]; eexists.
    + apply get_routing_table_run.
    + apply get_arp_table_run.
    + apply get_dns_info_run.
  - intros host w cmd text e interfaces gateways
           Hcmd Htext Harp Hifaces Hgateways.
    destruct (route_parser_total (system (self w)) text) as [routes Hroutes].
    exists routes. split; [exact Hroutes|]. cbv zeta.
    assert (Hsection : routing_section host (system (self w))
                       = RouteList routes).
    { unfold routing_section. rewrite Hcmd, Htext, Hroutes. reflexivity. }
    assert (Harp_text : arp_section host (system (self w))
                        = u "Error getting ARP table: " ++ exc_str e).
    { unfold arp_section. rewrite Harp. reflexivity. }
    split.
    + rewrite (collect_all_info_returns host w interfaces gateways
                 Hifaces Hgateways).
      unfold snapshot, pass_commands.
      rewrite Hsection, Harp_text, Hcmd. reflexivity.
    + match goal with
      | |- display_all_info ?final = _ =>
          exact (display_all_info_closed final
                   (table_of routing_fields (map route_row routes)) eq_refl)
      end.
Qed.

Lemma collection_contains_command_failures_witness :
  exists routes,
    route_parser (system (self (start arp_failure_host)))
      (u "default 10.0.0.1 UG 0 0 eth0")
    = Ok routes /\
    let a :=
      {| system := system (self (start arp_failure_host));
         interface_details :=
           [(u "eth0",
             {| IP := u "10.0.0.7"; Netmask := u "255.255.255.0";
                MAC := Some (u "aa:bb:cc:dd:ee:ff");
                Broadcast := u "N/A" |})];
         routing_table := RouteList routes;
         arp_table := u "Error getting ARP table: " ++ exc_str arp_failure;
         dns_info :=
           dns_section arp_failure_host
             (system (self (start arp_failure_host)));
         gateway_info := [(AF_INET, [u "10.0.0.1"; u "eth0"])] |} in
    let commands :=
      invoked (start arp_failure_host)
      ++ [u "netstat -rn";
          arp_command (system (self (start arp_failure_host)));
          dns_command (system (self (start arp_failure_host)))] in
    collect_all_info arp_failure_host (start arp_failure_host)
    = (Ok tt,
       {| self := a; invoked := commands;
          stdout := stdout (start arp_failure_host) |})
    /\ display_all_info
         {| self := a; invoked := commands;
            stdout := stdout (start arp_failure_host) |}
       = (Ok tt,
          {| self := a; invoked := commands;
             stdout := stdout (start arp_failure_host)
                       ++ display_output a
                            (table_of routing_fields
                               (map route_row routes)) |}).
Proof.
  apply (proj2 collection_contains_command_failures arp_failure_host
           (start arp_failure_host) (u "netstat -rn")
           (u "default 10.0.0.1 UG 0 0 eth0") arp_failure
           [(u "eth0",
             {| IP := u "10.0.0.7"; Netmask := u "255.255.255.0";
                MAC := Some (u "aa:bb:cc:dd:ee:ff"); Broadcast := u "N/A" |})]
           (Some [(AF_INET, [u "10.0.0.1"; u "eth0"])]));
    vm_compute; reflexivity.
Defined.

(** ** The parsers share no state *)

Lemma list_update_last {A} (l : list A) (x y : A) :
  list_update (l ++ [x]) (length l) y = l ++ [y].
Proof.
  induction l as [|z l IH]; simpl; [reflexivity|]. rewrite IH. reflexivity.
Qed.

Lemma nth_error_last {A} (l : list A) (x : A) :
  nth_error (l ++ [x]) (length l) = Some x.
Proof.
  induction l as [|z l IH]; simpl; [reflexivity | exact IH].
Qed.

(** A loop whose body only appends changes the one list object it works
    on, by appending to it what each line contributes. *)
Lemma for_lines_appends (body : list route -> str -> res (list route))
  (emit : str -> list route) (w : World) (older : list (list route)) :
  (forall acc line, body acc line = Ok (acc ++ emit line)) ->
  forall lines content,
    for_lines lines (turn body (length older))
      {| world := w; lists := older ++ [content] |}
    = (Ok tt,
       {| world := w; lists := older ++ [content ++ flat_map emit lines] |}).
Proof.
  intros Hbody lines. induction lines as [|line lines IH]; intros content.
  - simpl. rewrite app_nil_r. reflexivity.
  - cbn [for_lines flat_map]. unfold prog_bind, turn at 1.
    cbn [lists world]. rewrite nth_error_last, Hbody, list_update_last.
    rewrite IH, app_assoc. reflexivity.
Qed.

Lemma parse_windows_route_on_store_run (output : str) (st : Store) :
  parse_windows_route_on_store output st
  = (Ok (length (lists st)),
     {| world := world st;
        lists := lists st
                 ++ [map windows_record
                       (filter windows_qualifies (trimmed_lines output))] |}).
Proof.
  unfold parse_windows_route_on_store, prog_bind, new_list, prog_ret.
  rewrite (for_lines_appends windows_line
             (fun line => if windows_qualifies (strip line)
                          then [windows_record (strip line)] else []))
    by apply windows_line_emits.
  cbn [app]. rewrite flat_map_select. reflexivity.
Qed.

Lemma parse_unix_route_on_store_run (output : str) (st : Store) :
  parse_unix_route_on_store output st
  = (Ok (length (lists st)),
     {| world := world st;
        lists := lists st
                 ++ [map unix_record
                       (filter unix_qualifies (trimmed_lines output))] |}).
Proof.
  unfold parse_unix_route_on_store, prog_bind, new_list, prog_ret.
  rewrite (for_lines_appends unix_line
             (fun line => if unix_qualifies (strip line)
                          then [unix_record (strip line)] else []))
    by apply unix_line_emits.
  cbn [app]. rewrite flat_map_select. reflexivity.
Qed.

(** C9. Both parsers are functions of the text alone. Called twice in a
    row on the same text, in any state of the program and with any list
    objects in the store, each call returns a new list object; the two
    objects hold the same records in the same order, which are the
    records the parser returns for this text in every state; and the
    calls change neither the state of the program nor any list object
    that existed before them. *)
Theorem route_parsers_share_no_state (output : str) :
  exists windows_routes unix_routes,
    parse_windows_route output = Ok windows_routes /\
    parse_unix_route output = Ok unix_routes /\
    forall st : Store,
      (first <~~ parse_windows_route_on_store output ;;
       second <~~ parse_windows_route_on_store output ;;
       prog_ret (first, second)) st
      = (Ok (length (lists st), S (length (lists st))),
         {| world := world st;
            lists := lists st ++ [windows_routes; windows_routes] |})
      /\
      (first <~~ parse_unix_route_on_store output ;;
       second <~~ parse_unix_route_on_store output ;;
       prog_ret (first, second)) st
      = (Ok (length (lists st), S (length (lists st))),
         {| world := world st;
            lists := lists st ++ [unix_routes; unix_routes] |}).
Proof.
  exists (map windows_record
            (filter windows_qualifies (trimmed_lines output))),
    (map unix_record (filter unix_qualifies (trimmed_lines output))).
  split; [apply parse_windows_route_closed|].
  split; [apply parse_unix_route_closed|].
  intros st. unfold prog_bind, prog_ret. split.
  - rewrite !parse_windows_route_on_store_run. cbn [lists world].
    rewrite length_app, Nat.add_1_r, <- app_assoc. reflexivity.
  - rewrite !parse_unix_route_on_store_run. cbn [lists world].
    rewrite length_app, Nat.add_1_r, <- app_assoc. reflexivity.
Qed.
